(** * JuliaBridge: a shallow embedding of [packages/core/src/bridge/JuliaBridge.ts]

    The bridge is a single-threaded JavaScript object driven by callbacks.
    It is embedded as a record of its private fields, extended with the part
    of the Node.js runtime its callbacks talk to: the armed timers, the
    promise callbacks that were invoked, what was written to the child
    process and to the WebSocket, the emitted events and the console lines.
    Every method and every callback of the class is a function on that
    record.  An [async] method is a tree whose inner nodes are the points
    where the method draws a uuid or suspends on [await]; what happens to
    the bridge while a method is suspended is a parameter of the run.

    What is outside the repository is kept outside the model:
    - [JSON.stringify] enters through the length of what it returns, and
      [Date.prototype.toISOString] as a function; both are parameters;
    - [Date.now()] is an argument of the handlers that read the clock;
    - JavaScript numbers are integers where the code counts milliseconds
      and exact rationals where it multiplies delays;
    - [ws.send] behaves as in the [ws] package;
    - listeners that collaborators register on the bridge do not exist, and
      [emit] never throws. *)

From Stdlib Require Import ZArith QArith String List Bool Lia Arith.
From Stdlib Require Import DecimalString.
Import ListNotations.

Set Warnings "-register-all".
Close Scope Q_scope.
Open Scope string_scope.
Open Scope list_scope.

(** ** JavaScript truthiness, as used by [x || default] and [if (x)] *)

Definition truthyZ (x : Z) : bool := negb (x =? 0)%Z.

Definition truthyString (s : string) : bool :=
  match s with EmptyString => false | _ => true end.

(** [o || d] for an optional number. *)
Definition orZ (o : option Z) (d : Z) : Z :=
  match o with
  | Some x => if truthyZ x then x else d
  | None => d
  end.

Definition orNat (o : option nat) (d : nat) : nat :=
  match o with
  | Some 0 => d
  | Some n => n
  | None => d
  end.

Definition orQ (o : option Q) (d : Q) : Q :=
  match o with
  | Some x => if Qeq_bool x 0%Q then d else x
  | None => d
  end.

Definition truthyOptString (o : option string) : bool :=
  match o with Some s => truthyString s | None => false end.

(** ** [Map<string, V>]: keys are unique and iteration follows insertion order *)

Module JsMap.

Definition t (V : Type) : Type := list (string * V).

Definition empty {V} : t V := [].

Fixpoint get {V} (k : string) (m : t V) : option V :=
  match m with
  | [] => None
  | (k', v) :: r => if String.eqb k' k then Some v else get k r
  end.

Definition has {V} (k : string) (m : t V) : bool :=
  match get k m with Some _ => true | None => false end.

(** [set] overwrites in place when the key exists and appends otherwise. *)
Fixpoint set {V} (k : string) (v : V) (m : t V) : t V :=
  match m with
  | [] => [(k, v)]
  | (k', v') :: r =>
      if String.eqb k' k then (k, v) :: r else (k', v') :: set k v r
  end.

Definition delete {V} (k : string) (m : t V) : t V :=
  filter (fun kv => negb (String.eqb (fst kv) k)) m.

Definition keys {V} (m : t V) : list string := map fst m.

Definition values {V} (m : t V) : list V := map snd m.

Definition size {V} (m : t V) : nat := length m.

Definition clear {V} (m : t V) : t V := [].

End JsMap.

(** ** JSON values ([any]) *)

Inductive Json : Type :=
| JNull
| JBool (b : bool)
| JNum (q : Q)
| JStr (s : string)
| JArr (l : list Json)
| JObj (fields : list (string * Json)).

(** ** Errors *)

(** [new Error(message)] and [new JuliaBridgeError(message, code)]. *)
Inductive JsError : Type :=
| Error (message : string)
| JuliaBridgeError (message : string) (code : string).

Definition message (e : JsError) : string :=
  match e with
  | Error m => m
  | JuliaBridgeError m _ => m
  end.

Definition code (e : JsError) : option string :=
  match e with
  | Error _ => None
  | JuliaBridgeError _ c => Some c
  end.

(** ** Configuration *)

Record JuliaBridgeOptions : Type := mkOptions {
  debug : option bool;
  opt_timeout : option Z;
  maxRetries : option nat;
  reconnectInterval : option Z;
  artificialDelay : option Z;
  heartbeatInterval : option Z;
  heartbeatTimeout : option Z;
  maxQueueSize : option nat;
  backoffMultiplier : option Q;
  env : option (list (string * string));
  projectPath : option string;
  depotPath : option string
}.

Record JuliaBridgeConfig : Type := mkConfig {
  juliaPath : string;
  scriptPath : string;
  port : Z;
  options : option JuliaBridgeOptions
}.

(** [this.config.options?.f || d] *)
Definition optZ (c : JuliaBridgeConfig) (f : JuliaBridgeOptions -> option Z)
  (d : Z) : Z :=
  orZ (match options c with Some o => f o | None => None end) d.

Definition optNat (c : JuliaBridgeConfig) (f : JuliaBridgeOptions -> option nat)
  (d : nat) : nat :=
  orNat (match options c with Some o => f o | None => None end) d.

Definition optQ (c : JuliaBridgeConfig) (f : JuliaBridgeOptions -> option Q)
  (d : Q) : Q :=
  orQ (match options c with Some o => f o | None => None end) d.

Definition optDebug (c : JuliaBridgeConfig) : bool :=
  match options c with
  | Some o => match debug o with Some true => true | _ => false end
  | None => false
  end.

(** ** Swarm data *)

Inductive Algorithm : Type := pso | aco | abc | firefly.

Record SwarmParameters : Type := mkSwarmParameters {
  maxPositionSize : Q;
  stopLoss : Q;
  takeProfit : Q;
  maxDrawdown : Q;
  inertia : option Q;
  cognitiveWeight : option Q;
  socialWeight : option Q
}.

Module SwarmConfig.
Record t : Type := mk {
  id : option string;
  name : option string;
  size : Q;
  algorithm : Algorithm;
  parameters : SwarmParameters
}.
(** [{ ...config, id: swarmId }] *)
Definition withId (config : t) (swarmId : string) : t :=
  mk (Some swarmId) (name config) (size config) (algorithm config)
     (parameters config).
End SwarmConfig.

(** A timestamp is [string | Date]; a [Date] is its epoch milliseconds. *)
Inductive Timestamp : Type :=
| TsString (s : string)
| TsDate (epochMs : Z).

Record MarketDataPoint : Type := mkMarketDataPoint {
  symbol : string;
  price : Q;
  volume : Q;
  timestamp : Timestamp;
  indicators : option (list (string * Q))
}.

Record RiskParameters : Type := mkRiskParameters {
  risk_maxPositionSize : Q;
  risk_stopLoss : Q;
  risk_takeProfit : Q;
  risk_maxDrawdown : Q
}.

Record SwarmOptimizationInput : Type := mkSwarmOptimizationInput {
  swarmId : string;
  marketData : list MarketDataPoint;
  tradingPairs : list string;
  riskParameters : RiskParameters
}.

(** ** Wire data *)

(** The [data] argument of [sendCommand], one constructor per call site. *)
Inductive CommandData : Type :=
| StartSwarmData (swarmConfig : SwarmConfig.t)
| StopSwarmData (swarmId : string)
| OptimizeSwarmData (swarmId : string) (marketData : list MarketDataPoint)
    (tradingPairs : list string) (riskParameters : RiskParameters)
| SwarmStatusData (swarmId : string)
| ExecuteCodeData (code : string).

(** [commandObj = { id, command, data }] *)
Module CommandObj.
Record t : Type := mk {
  id : string;
  command : string;
  data : CommandData
}.
End CommandObj.

(** What the bridge writes to the child's standard input. *)
Inductive StdinLine : Type :=
| CommandLine (obj : CommandObj.t)   (* serializedData + '\n' *)
| RawLine (s : string).

Record ResponseMetadata : Type := mkResponseMetadata {
  executionTime : option Q;
  memoryUsage : option Q;
  workerId : option Q
}.

(** A parsed inbound WebSocket message. *)
Module JuliaResponse.
Record t : Type := mk {
  id : string;
  type : string;
  data : Json;
  error : option string;
  metadata : option ResponseMetadata
}.
End JuliaResponse.

(** What the bridge sends on the WebSocket. *)
Inductive WsFrame : Type :=
| RequestFrame (requestMessage : JsMap.t Json)  (* { id: requestId, ...message } *)
| HeartbeatFrame (timestamp : Z).               (* { type: 'heartbeat', timestamp } *)

(** ** Promises and timers of the runtime *)

(** A value a promise resolves with: [any] for commands, the whole inbound
    message for WebSocket requests, [undefined] for [void] promises. *)
Inductive Value : Type :=
| VAny (j : Json)
| VResponse (m : JuliaResponse.t)
| VUndefined.

Inductive Settlement : Type :=
| Resolved (v : Value)
| Rejected (e : JsError).

(** Promises and timers are named by the handle the runtime allocates. *)
Abbreviation PromiseId := nat (only parsing).
Abbreviation TimerId := nat (only parsing).

(** The callbacks handed to [setTimeout] and [setInterval]. *)
Inductive TimerCallback : Type :=
| CommandTimeout (commandId command : string) (promise : PromiseId)
| RequestTimeout (requestId : string) (promise : PromiseId)
| DelayedSend (frame : WsFrame)
| ReconnectTick
| HeartbeatTick
| KillProcess
| Reinitialize
| ConnectionTimeout (promise : PromiseId).

Record Timer : Type := mkTimer {
  handle : TimerId;
  callback : TimerCallback;
  delay : Q;
  repeating : bool
}.

(** ** Events and console *)

Inductive BridgeEvent : Type :=
| EvInitialized
| EvShutdown
| EvConnected
| EvDisconnected
| EvError (e : JsError)
| EvMessage (m : JuliaResponse.t)
| EvReconnecting (attempt : nat) (delay : Q)
| EvReconnectFailed (attempts : nat)
| EvSwarmCreated (swarmId : string) (config : SwarmConfig.t)
| EvSwarmStopped (swarmId : string)
| EvSwarmOptimized (swarmId : string) (tradingSignals : Value)
| EvCommandExecuted (command : string) (success : bool) (error : option JsError).

(** A console line keeps the parts of its template: the literal text, the
    interpolated numbers and the error object passed as last argument. *)
Inductive ConsolePart : Type :=
| Txt (s : string)
| NumQ (q : Q)
| NumNat (n : nat)
| NumZ (z : Z)
| ErrObj (e : JsError).

Inductive ConsoleLine : Type :=
| ConsoleLog (parts : list ConsolePart)
| ConsoleWarn (parts : list ConsolePart)
| ConsoleError (parts : list ConsolePart).

(** ** The child process and the socket *)

Record Stdin : Type := mkStdin {
  writable : bool;
  writeThrows : option string;   (* [write] throws synchronously with this message *)
  writeReturns : bool            (* the return value of [write]: false under backpressure *)
}.

(** The launch arguments play no role after [spawn] and are left out. *)
Record ChildProcess : Type := mkChildProcess {
  stdin : option Stdin;
  exitCode : option Z;
  killed : bool
}.

Inductive ReadyState : Type := CONNECTING | OPEN | CLOSING | CLOSED.

(** ** Table entries *)

Module PendingRequest.
Record t : Type := mk {
  resolve : PromiseId;
  reject : PromiseId;
  timeout : option TimerId
}.
End PendingRequest.

Module PendingCommand.
Record t : Type := mk {
  resolve : PromiseId;
  reject : PromiseId;
  timeout : TimerId
}.
End PendingCommand.

Module QueueItem.
Record t : Type := mk {
  message : JsMap.t Json;
  resolve : PromiseId;
  reject : PromiseId;
  timestamp : Z
}.
End QueueItem.

(** ** The bridge

    The first nineteen fields are the private fields of the class, in the
    order of their declaration.  The remaining ones are the runtime around
    it: [timers] holds the armed timers, [settled] the promise callbacks that
    were invoked (in order), [thenLinks] the [.then(resolve).catch(reject)]
    chains hanging off a promise, [connectionWaiters] the listeners
    [waitForConnection] registered, and the four logs what left the object. *)

Record Bridge : Type := mkBridge {
  config : JuliaBridgeConfig;
  ws : option ReadyState;
  isConnected : bool;
  retryCount : nat;
  messageQueue : list QueueItem.t;
  reconnectTimer : option TimerId;
  heartbeatTimer : option TimerId;
  lastHeartbeat : Z;
  isReconnecting : bool;
  juliaProcess : option ChildProcess;
  pendingRequests : JsMap.t PendingRequest.t;
  isInitialized : bool;
  pendingCommands : JsMap.t PendingCommand.t;
  activeSwarms : JsMap.t SwarmConfig.t;
  reconnectAttempts : nat;
  maxReconnectAttempts : nat;
  reconnectDelay : Z;
  autoReconnect : bool;
  timeout : Z;
  (* runtime *)
  timers : list Timer;
  nextTimer : TimerId;
  nextPromise : PromiseId;
  settled : list (PromiseId * Settlement);
  thenLinks : list (PromiseId * QueueItem.t);
  connectionWaiters : list (PromiseId * TimerId);
  stdinLog : list StdinLine;
  wsLog : list WsFrame;
  emitted : list BridgeEvent;
  console : list ConsoleLine
}.

(** Field updates ([this.f = v]). *)

Definition set_ws (v : option ReadyState) (b : Bridge) : Bridge :=
  mkBridge (config b) v (isConnected b) (retryCount b) (messageQueue b)
    (reconnectTimer b) (heartbeatTimer b) (lastHeartbeat b)
    (isReconnecting b) (juliaProcess b) (pendingRequests b)
    (isInitialized b) (pendingCommands b) (activeSwarms b)
    (reconnectAttempts b) (maxReconnectAttempts b) (reconnectDelay b)
    (autoReconnect b) (timeout b) (timers b) (nextTimer b) (nextPromise b)
    (settled b) (thenLinks b) (connectionWaiters b) (stdinLog b) (wsLog b)
    (emitted b) (console b).

Definition set_isConnected (v : bool) (b : Bridge) : Bridge :=
  mkBridge (config b) (ws b) v (retryCount b) (messageQueue b)
    (reconnectTimer b) (heartbeatTimer b) (lastHeartbeat b)
    (isReconnecting b) (juliaProcess b) (pendingRequests b)
    (isInitialized b) (pendingCommands b) (activeSwarms b)
    (reconnectAttempts b) (maxReconnectAttempts b) (reconnectDelay b)
    (autoReconnect b) (timeout b) (timers b) (nextTimer b) (nextPromise b)
    (settled b) (thenLinks b) (connectionWaiters b) (stdinLog b) (wsLog b)
    (emitted b) (console b).

Definition set_retryCount (v : nat) (b : Bridge) : Bridge :=
  mkBridge (config b) (ws b) (isConnected b) v (messageQueue b)
    (reconnectTimer b) (heartbeatTimer b) (lastHeartbeat b)
    (isReconnecting b) (juliaProcess b) (pendingRequests b)
    (isInitialized b) (pendingCommands b) (activeSwarms b)
    (reconnectAttempts b) (maxReconnectAttempts b) (reconnectDelay b)
    (autoReconnect b) (timeout b) (timers b) (nextTimer b) (nextPromise b)
    (settled b) (thenLinks b) (connectionWaiters b) (stdinLog b) (wsLog b)
    (emitted b) (console b).

Definition set_messageQueue (v : list QueueItem.t) (b : Bridge) : Bridge :=
  mkBridge (config b) (ws b) (isConnected b) (retryCount b) v
    (reconnectTimer b) (heartbeatTimer b) (lastHeartbeat b)
    (isReconnecting b) (juliaProcess b) (pendingRequests b)
    (isInitialized b) (pendingCommands b) (activeSwarms b)
    (reconnectAttempts b) (maxReconnectAttempts b) (reconnectDelay b)
    (autoReconnect b) (timeout b) (timers b) (nextTimer b) (nextPromise b)
    (settled b) (thenLinks b) (connectionWaiters b) (stdinLog b) (wsLog b)
    (emitted b) (console b).

Definition set_reconnectTimer (v : option TimerId) (b : Bridge) : Bridge :=
  mkBridge (config b) (ws b) (isConnected b) (retryCount b) (messageQueue b)
    v (heartbeatTimer b) (lastHeartbeat b) (isReconnecting b)
    (juliaProcess b) (pendingRequests b) (isInitialized b)
    (pendingCommands b) (activeSwarms b) (reconnectAttempts b)
    (maxReconnectAttempts b) (reconnectDelay b) (autoReconnect b)
    (timeout b) (timers b) (nextTimer b) (nextPromise b) (settled b)
    (thenLinks b) (connectionWaiters b) (stdinLog b) (wsLog b) (emitted b)
    (console b).

Definition set_heartbeatTimer (v : option TimerId) (b : Bridge) : Bridge :=
  mkBridge (config b) (ws b) (isConnected b) (retryCount b) (messageQueue b)
    (reconnectTimer b) v (lastHeartbeat b) (isReconnecting b)
    (juliaProcess b) (pendingRequests b) (isInitialized b)
    (pendingCommands b) (activeSwarms b) (reconnectAttempts b)
    (maxReconnectAttempts b) (reconnectDelay b) (autoReconnect b)
    (timeout b) (timers b) (nextTimer b) (nextPromise b) (settled b)
    (thenLinks b) (connectionWaiters b) (stdinLog b) (wsLog b) (emitted b)
    (console b).

Definition set_lastHeartbeat (v : Z) (b : Bridge) : Bridge :=
  mkBridge (config b) (ws b) (isConnected b) (retryCount b) (messageQueue b)
    (reconnectTimer b) (heartbeatTimer b) v (isReconnecting b)
    (juliaProcess b) (pendingRequests b) (isInitialized b)
    (pendingCommands b) (activeSwarms b) (reconnectAttempts b)
    (maxReconnectAttempts b) (reconnectDelay b) (autoReconnect b)
    (timeout b) (timers b) (nextTimer b) (nextPromise b) (settled b)
    (thenLinks b) (connectionWaiters b) (stdinLog b) (wsLog b) (emitted b)
    (console b).

Definition set_isReconnecting (v : bool) (b : Bridge) : Bridge :=
  mkBridge (config b) (ws b) (isConnected b) (retryCount b) (messageQueue b)
    (reconnectTimer b) (heartbeatTimer b) (lastHeartbeat b) v
    (juliaProcess b) (pendingRequests b) (isInitialized b)
    (pendingCommands b) (activeSwarms b) (reconnectAttempts b)
    (maxReconnectAttempts b) (reconnectDelay b) (autoReconnect b)
    (timeout b) (timers b) (nextTimer b) (nextPromise b) (settled b)
    (thenLinks b) (connectionWaiters b) (stdinLog b) (wsLog b) (emitted b)
    (console b).

Definition set_juliaProcess (v : option ChildProcess) (b : Bridge) : Bridge :=
  mkBridge (config b) (ws b) (isConnected b) (retryCount b) (messageQueue b)
    (reconnectTimer b) (heartbeatTimer b) (lastHeartbeat b)
    (isReconnecting b) v (pendingRequests b) (isInitialized b)
    (pendingCommands b) (activeSwarms b) (reconnectAttempts b)
    (maxReconnectAttempts b) (reconnectDelay b) (autoReconnect b)
    (timeout b) (timers b) (nextTimer b) (nextPromise b) (settled b)
    (thenLinks b) (connectionWaiters b) (stdinLog b) (wsLog b) (emitted b)
    (console b).

Definition set_pendingRequests (v : JsMap.t PendingRequest.t) (b : Bridge) : Bridge :=
  mkBridge (config b) (ws b) (isConnected b) (retryCount b) (messageQueue b)
    (reconnectTimer b) (heartbeatTimer b) (lastHeartbeat b)
    (isReconnecting b) (juliaProcess b) v (isInitialized b)
    (pendingCommands b) (activeSwarms b) (reconnectAttempts b)
    (maxReconnectAttempts b) (reconnectDelay b) (autoReconnect b)
    (timeout b) (timers b) (nextTimer b) (nextPromise b) (settled b)
    (thenLinks b) (connectionWaiters b) (stdinLog b) (wsLog b) (emitted b)
    (console b).

Definition set_isInitialized (v : bool) (b : Bridge) : Bridge :=
  mkBridge (config b) (ws b) (isConnected b) (retryCount b) (messageQueue b)
    (reconnectTimer b) (heartbeatTimer b) (lastHeartbeat b)
    (isReconnecting b) (juliaProcess b) (pendingRequests b) v
    (pendingCommands b) (activeSwarms b) (reconnectAttempts b)
    (maxReconnectAttempts b) (reconnectDelay b) (autoReconnect b)
    (timeout b) (timers b) (nextTimer b) (nextPromise b) (settled b)
    (thenLinks b) (connectionWaiters b) (stdinLog b) (wsLog b) (emitted b)
    (console b).

Definition set_pendingCommands (v : JsMap.t PendingCommand.t) (b : Bridge) : Bridge :=
  mkBridge (config b) (ws b) (isConnected b) (retryCount b) (messageQueue b)
    (reconnectTimer b) (heartbeatTimer b) (lastHeartbeat b)
    (isReconnecting b) (juliaProcess b) (pendingRequests b)
    (isInitialized b) v (activeSwarms b) (reconnectAttempts b)
    (maxReconnectAttempts b) (reconnectDelay b) (autoReconnect b)
    (timeout b) (timers b) (nextTimer b) (nextPromise b) (settled b)
    (thenLinks b) (connectionWaiters b) (stdinLog b) (wsLog b) (emitted b)
    (console b).

Definition set_activeSwarms (v : JsMap.t SwarmConfig.t) (b : Bridge) : Bridge :=
  mkBridge (config b) (ws b) (isConnected b) (retryCount b) (messageQueue b)
    (reconnectTimer b) (heartbeatTimer b) (lastHeartbeat b)
    (isReconnecting b) (juliaProcess b) (pendingRequests b)
    (isInitialized b) (pendingCommands b) v (reconnectAttempts b)
    (maxReconnectAttempts b) (reconnectDelay b) (autoReconnect b)
    (timeout b) (timers b) (nextTimer b) (nextPromise b) (settled b)
    (thenLinks b) (connectionWaiters b) (stdinLog b) (wsLog b) (emitted b)
    (console b).

Definition set_reconnectAttempts (v : nat) (b : Bridge) : Bridge :=
  mkBridge (config b) (ws b) (isConnected b) (retryCount b) (messageQueue b)
    (reconnectTimer b) (heartbeatTimer b) (lastHeartbeat b)
    (isReconnecting b) (juliaProcess b) (pendingRequests b)
    (isInitialized b) (pendingCommands b) (activeSwarms b) v
    (maxReconnectAttempts b) (reconnectDelay b) (autoReconnect b)
    (timeout b) (timers b) (nextTimer b) (nextPromise b) (settled b)
    (thenLinks b) (connectionWaiters b) (stdinLog b) (wsLog b) (emitted b)
    (console b).

Definition set_timers (v : list Timer) (b : Bridge) : Bridge :=
  mkBridge (config b) (ws b) (isConnected b) (retryCount b) (messageQueue b)
    (reconnectTimer b) (heartbeatTimer b) (lastHeartbeat b)
    (isReconnecting b) (juliaProcess b) (pendingRequests b)
    (isInitialized b) (pendingCommands b) (activeSwarms b)
    (reconnectAttempts b) (maxReconnectAttempts b) (reconnectDelay b)
    (autoReconnect b) (timeout b) v (nextTimer b) (nextPromise b)
    (settled b) (thenLinks b) (connectionWaiters b) (stdinLog b) (wsLog b)
    (emitted b) (console b).

Definition set_nextTimer (v : TimerId) (b : Bridge) : Bridge :=
  mkBridge (config b) (ws b) (isConnected b) (retryCount b) (messageQueue b)
    (reconnectTimer b) (heartbeatTimer b) (lastHeartbeat b)
    (isReconnecting b) (juliaProcess b) (pendingRequests b)
    (isInitialized b) (pendingCommands b) (activeSwarms b)
    (reconnectAttempts b) (maxReconnectAttempts b) (reconnectDelay b)
    (autoReconnect b) (timeout b) (timers b) v (nextPromise b) (settled b)
    (thenLinks b) (connectionWaiters b) (stdinLog b) (wsLog b) (emitted b)
    (console b).

Definition set_nextPromise (v : PromiseId) (b : Bridge) : Bridge :=
  mkBridge (config b) (ws b) (isConnected b) (retryCount b) (messageQueue b)
    (reconnectTimer b) (heartbeatTimer b) (lastHeartbeat b)
    (isReconnecting b) (juliaProcess b) (pendingRequests b)
    (isInitialized b) (pendingCommands b) (activeSwarms b)
    (reconnectAttempts b) (maxReconnectAttempts b) (reconnectDelay b)
    (autoReconnect b) (timeout b) (timers b) (nextTimer b) v (settled b)
    (thenLinks b) (connectionWaiters b) (stdinLog b) (wsLog b) (emitted b)
    (console b).

Definition set_settled (v : list (PromiseId * Settlement)) (b : Bridge) : Bridge :=
  mkBridge (config b) (ws b) (isConnected b) (retryCount b) (messageQueue b)
    (reconnectTimer b) (heartbeatTimer b) (lastHeartbeat b)
    (isReconnecting b) (juliaProcess b) (pendingRequests b)
    (isInitialized b) (pendingCommands b) (activeSwarms b)
    (reconnectAttempts b) (maxReconnectAttempts b) (reconnectDelay b)
    (autoReconnect b) (timeout b) (timers b) (nextTimer b) (nextPromise b) v
    (thenLinks b) (connectionWaiters b) (stdinLog b) (wsLog b) (emitted b)
    (console b).

Definition set_thenLinks (v : list (PromiseId * QueueItem.t)) (b : Bridge) : Bridge :=
  mkBridge (config b) (ws b) (isConnected b) (retryCount b) (messageQueue b)
    (reconnectTimer b) (heartbeatTimer b) (lastHeartbeat b)
    (isReconnecting b) (juliaProcess b) (pendingRequests b)
    (isInitialized b) (pendingCommands b) (activeSwarms b)
    (reconnectAttempts b) (maxReconnectAttempts b) (reconnectDelay b)
    (autoReconnect b) (timeout b) (timers b) (nextTimer b) (nextPromise b)
    (settled b) v (connectionWaiters b) (stdinLog b) (wsLog b) (emitted b)
    (console b).

Definition set_connectionWaiters (v : list (PromiseId * TimerId)) (b : Bridge) : Bridge :=
  mkBridge (config b) (ws b) (isConnected b) (retryCount b) (messageQueue b)
    (reconnectTimer b) (heartbeatTimer b) (lastHeartbeat b)
    (isReconnecting b) (juliaProcess b) (pendingRequests b)
    (isInitialized b) (pendingCommands b) (activeSwarms b)
    (reconnectAttempts b) (maxReconnectAttempts b) (reconnectDelay b)
    (autoReconnect b) (timeout b) (timers b) (nextTimer b) (nextPromise b)
    (settled b) (thenLinks b) v (stdinLog b) (wsLog b) (emitted b)
    (console b).

Definition set_stdinLog (v : list StdinLine) (b : Bridge) : Bridge :=
  mkBridge (config b) (ws b) (isConnected b) (retryCount b) (messageQueue b)
    (reconnectTimer b) (heartbeatTimer b) (lastHeartbeat b)
    (isReconnecting b) (juliaProcess b) (pendingRequests b)
    (isInitialized b) (pendingCommands b) (activeSwarms b)
    (reconnectAttempts b) (maxReconnectAttempts b) (reconnectDelay b)
    (autoReconnect b) (timeout b) (timers b) (nextTimer b) (nextPromise b)
    (settled b) (thenLinks b) (connectionWaiters b) v (wsLog b) (emitted b)
    (console b).

Definition set_wsLog (v : list WsFrame) (b : Bridge) : Bridge :=
  mkBridge (config b) (ws b) (isConnected b) (retryCount b) (messageQueue b)
    (reconnectTimer b) (heartbeatTimer b) (lastHeartbeat b)
    (isReconnecting b) (juliaProcess b) (pendingRequests b)
    (isInitialized b) (pendingCommands b) (activeSwarms b)
    (reconnectAttempts b) (maxReconnectAttempts b) (reconnectDelay b)
    (autoReconnect b) (timeout b) (timers b) (nextTimer b) (nextPromise b)
    (settled b) (thenLinks b) (connectionWaiters b) (stdinLog b) v
    (emitted b) (console b).

Definition set_emitted (v : list BridgeEvent) (b : Bridge) : Bridge :=
  mkBridge (config b) (ws b) (isConnected b) (retryCount b) (messageQueue b)
    (reconnectTimer b) (heartbeatTimer b) (lastHeartbeat b)
    (isReconnecting b) (juliaProcess b) (pendingRequests b)
    (isInitialized b) (pendingCommands b) (activeSwarms b)
    (reconnectAttempts b) (maxReconnectAttempts b) (reconnectDelay b)
    (autoReconnect b) (timeout b) (timers b) (nextTimer b) (nextPromise b)
    (settled b) (thenLinks b) (connectionWaiters b) (stdinLog b) (wsLog b) v
    (console b).

Definition set_console (v : list ConsoleLine) (b : Bridge) : Bridge :=
  mkBridge (config b) (ws b) (isConnected b) (retryCount b) (messageQueue b)
    (reconnectTimer b) (heartbeatTimer b) (lastHeartbeat b)
    (isReconnecting b) (juliaProcess b) (pendingRequests b)
    (isInitialized b) (pendingCommands b) (activeSwarms b)
    (reconnectAttempts b) (maxReconnectAttempts b) (reconnectDelay b)
    (autoReconnect b) (timeout b) (timers b) (nextTimer b) (nextPromise b)
    (settled b) (thenLinks b) (connectionWaiters b) (stdinLog b) (wsLog b)
    (emitted b) v.

(** ** Runtime primitives *)

Definition setTimeout (cb : TimerCallback) (ms : Q) (b : Bridge)
  : TimerId * Bridge :=
  let h := nextTimer b in
  (h, set_nextTimer (S h) (set_timers (timers b ++ [mkTimer h cb ms false]) b)).

Definition setInterval (cb : TimerCallback) (ms : Q) (b : Bridge)
  : TimerId * Bridge :=
  let h := nextTimer b in
  (h, set_nextTimer (S h) (set_timers (timers b ++ [mkTimer h cb ms true]) b)).

Definition clearTimeout (h : TimerId) (b : Bridge) : Bridge :=
  set_timers (filter (fun t => negb (Nat.eqb (handle t) h)) (timers b)) b.

Definition clearInterval := clearTimeout.

Definition armed (h : TimerId) (b : Bridge) : bool :=
  existsb (fun t => Nat.eqb (handle t) h) (timers b).

(** [new Promise(...)]: the handle names both callbacks of the promise. *)
Definition newPromise (b : Bridge) : PromiseId * Bridge :=
  (nextPromise b, set_nextPromise (S (nextPromise b)) b).

Definition isSettled (p : PromiseId) (b : Bridge) : bool :=
  existsb (fun ps => Nat.eqb (fst ps) p) (settled b).

(** One invocation of a promise callback. *)
Definition call (p : PromiseId) (s : Settlement) (b : Bridge) : Bridge :=
  set_settled (settled b ++ [(p, s)]) b.

(** [resolve(v)] or [reject(e)] on promise [p].  The first one settles the
    promise, which runs the [.then(item.resolve).catch(item.reject)] chains
    registered on it. *)
Definition settle (p : PromiseId) (s : Settlement) (b : Bridge) : Bridge :=
  let first := negb (isSettled p b) in
  let b1 := call p s b in
  if first then
    fold_left
      (fun acc link =>
         if Nat.eqb (fst link) p then
           match s with
           | Resolved _ => call (QueueItem.resolve (snd link)) s acc
           | Rejected _ => call (QueueItem.reject (snd link)) s acc
           end
         else acc)
      (thenLinks b1) b1
  else b1.

(** How often the callbacks of [p] were invoked. *)
Definition callCount (p : PromiseId) (b : Bridge) : nat :=
  length (filter (fun ps => Nat.eqb (fst ps) p) (settled b)).

Definition log (l : ConsoleLine) (b : Bridge) : Bridge :=
  set_console (console b ++ [l]) b.

(** [this.emit(ev)].  The only listeners inside the class are the two
    [once] listeners of [waitForConnection]; listeners of collaborators are
    outside the model. *)
Definition emit (ev : BridgeEvent) (b : Bridge) : Bridge :=
  let b1 := set_emitted (emitted b ++ [ev]) b in
  match ev with
  | EvConnected =>
      fold_left
        (fun acc w => settle (fst w) (Resolved VUndefined) (clearTimeout (snd w) acc))
        (connectionWaiters b1) (set_connectionWaiters [] b1)
  | EvError e =>
      fold_left
        (fun acc w => settle (fst w) (Rejected e) (clearTimeout (snd w) acc))
        (connectionWaiters b1) (set_connectionWaiters [] b1)
  | _ => b1
  end.

(** [ws.send(frame)] of the [ws] package: it throws while the socket is
    still connecting, transmits when open, and drops the frame otherwise. *)
Definition wsSend (frame : WsFrame) (b : Bridge) : option string * Bridge :=
  match ws b with
  | Some OPEN => (None, set_wsLog (wsLog b ++ [frame]) b)
  | Some CONNECTING =>
      (Some "WebSocket is not open: readyState 0 (CONNECTING)", b)
  | _ => (None, b)
  end.

Definition newline : string := String (Ascii.ascii_of_nat 10) EmptyString.

Definition natToString (n : nat) : string :=
  NilZero.string_of_uint (Nat.to_uint n).

(** [(len / (1024 * 1024)).toFixed(2)]: the quotient is exact in binary
    floating point, and [toFixed] rounds half up. *)
Definition toFixed2MB (len : N) : string :=
  let n := ((len * 100 + 524288) / 1048576)%N in
  NilZero.string_of_uint (N.to_uint (n / 100))
  ++ "." ++ NilZero.string_of_uint (N.to_uint ((n / 10) mod 10))
  ++ NilZero.string_of_uint (N.to_uint (n mod 10)).

(** ** Asynchronous methods

    An [async] method runs until it returns, throws, draws a [uuidv4()], or
    suspends on a pending promise; in the last case it resumes with the
    bridge as it is when the promise settles. *)

Inductive Async (R : Type) : Type :=
| Ret (b : Bridge) (r : R)
| Throw (b : Bridge) (e : JsError)
| Uuid (k : string -> Async R)
| Await (b : Bridge) (p : PromiseId) (k : Bridge -> Settlement -> Async R).

Arguments Ret {R} b r.
Arguments Throw {R} b e.
Arguments Uuid {R} k.
Arguments Await {R} b p k.

Fixpoint bind {A B} (a : Async A) (f : Bridge -> A -> Async B) : Async B :=
  match a with
  | Ret b r => f b r
  | Throw b e => Throw b e
  | Uuid k => Uuid (fun u => bind (k u) f)
  | Await b p k => Await b p (fun b' s => bind (k b' s) f)
  end.

(** [try { a } catch (error) { h }] *)
Fixpoint tryCatch {A} (a : Async A) (h : Bridge -> JsError -> Async A)
  : Async A :=
  match a with
  | Ret b r => Ret b r
  | Throw b e => h b e
  | Uuid k => Uuid (fun u => tryCatch (k u) h)
  | Await b p k => Await b p (fun b' s => tryCatch (k b' s) h)
  end.

(** [await promise], for a promise that may already be settled. *)
Definition await (b : Bridge) (p : PromiseId) : Async Value :=
  match find (fun ps => Nat.eqb (fst ps) p) (settled b) with
  | Some (_, Resolved v) => Ret b v
  | Some (_, Rejected e) => Throw b e
  | None =>
      Await b p (fun b' s =>
        match s with
        | Resolved v => Ret b' v
        | Rejected e => Throw b' e
        end)
  end.

(** The result of running a method: it returned, it threw, or it is still
    suspended on a promise that nothing settles. *)
Inductive Outcome (R : Type) : Type :=
| Returned (b : Bridge) (r : R)
| Threw (b : Bridge) (e : JsError)
| Suspended (b : Bridge) (p : PromiseId).

Arguments Returned {R} b r.
Arguments Threw {R} b e.
Arguments Suspended {R} b p.

Definition final {R} (o : Outcome R) : Bridge :=
  match o with Returned b _ => b | Threw b _ => b | Suspended b _ => b end.

(** While a method is suspended on promise [p] the rest of the world moves
    the bridge on and settles [p], or never does. *)
Definition World := Bridge -> PromiseId -> option (Bridge * Settlement).

(** [exec uuid n world a] runs [a] when [n] uuids have been drawn so far:
    the next call of [uuidv4()] returns [uuid n].  It returns the outcome and
    the number of uuids drawn by then. *)
Fixpoint exec {R} (uuid : nat -> string) (n : nat) (world : World)
  (a : Async R) : Outcome R * nat :=
  match a with
  | Ret b r => (Returned b r, n)
  | Throw b e => (Threw b e, n)
  | Uuid k => exec uuid (S n) world (k (uuid n))
  | Await b p k =>
      match world b p with
      | Some (b', s) => exec uuid n world (k b' s)
      | None => (Suspended b p, n)
      end
  end.

Definition run {R} (uuid : nat -> string) (world : World) (a : Async R)
  : Outcome R :=
  fst (exec uuid 0 world a).

(** ** The class *)

(** [constructor(options)] *)
Definition constructor (o_juliaPath : option string)
  (o_autoReconnect : option bool) (o_timeout : option Z) : Bridge :=
  {| config :=
       {| juliaPath :=
            match o_juliaPath with
            | Some s => if truthyString s then s else "julia"
            | None => "julia"
            end;
          scriptPath := "";
          port := 0;
          options := Some
            {| debug := Some false;
               opt_timeout := Some (orZ o_timeout 30000);
               maxRetries := Some 3;
               reconnectInterval := Some 5000%Z;
               artificialDelay := Some 0%Z;
               heartbeatInterval := Some 30000%Z;
               heartbeatTimeout := Some 10000%Z;
               maxQueueSize := Some 1000;
               backoffMultiplier := Some (3 # 2)%Q;
               env := Some [];
               projectPath := Some "";
               depotPath := Some "" |} |};
     ws := None;
     isConnected := false;
     retryCount := 0;
     messageQueue := [];
     reconnectTimer := None;
     heartbeatTimer := None;
     lastHeartbeat := 0;
     isReconnecting := false;
     juliaProcess := None;
     pendingRequests := JsMap.empty;
     isInitialized := false;
     pendingCommands := JsMap.empty;
     activeSwarms := JsMap.empty;
     reconnectAttempts := 0;
     maxReconnectAttempts := 5;
     reconnectDelay := 1000;
     autoReconnect :=
       match o_autoReconnect with Some false => false | _ => true end;
     timeout := orZ o_timeout 30000;
     timers := [];
     nextTimer := 0;
     nextPromise := 0;
     settled := [];
     thenLinks := [];
     connectionWaiters := [];
     stdinLog := [];
     wsLog := [];
     emitted := [];
     console := [] |}.

(** *** Connection *)

(** [calculateBackoffDelay()] *)
Definition calculateBackoffDelay (b : Bridge) : Q :=
  let baseDelay := optZ (config b) reconnectInterval 5000 in
  let multiplier := optQ (config b) backoffMultiplier (3 # 2)%Q in
  (inject_Z baseDelay * Qpower multiplier (Z.of_nat (retryCount b)))%Q.

(** The synchronous part of [connectWebSocket()]: unless a socket is open or
    connecting, a new one is created (the constructor of the socket is taken
    not to throw); its four handlers are [wsOnOpen], [wsOnMessage],
    [wsOnError] and [wsOnClose] below. *)
Definition connectWebSocket (b : Bridge) : Bridge :=
  match ws b with
  | Some OPEN | Some CONNECTING => b
  | _ => set_ws (Some CONNECTING) b
  end.

(** [scheduleReconnect()] *)
Definition scheduleReconnect (b : Bridge) : Bridge :=
  if isReconnecting b
     || match reconnectTimer b with Some _ => true | None => false end
  then b
  else
    let b1 := set_isReconnecting true b in
    let delay := calculateBackoffDelay b1 in
    let b2 :=
      log (ConsoleLog [Txt "Reconnecting in "; NumQ delay; Txt "ms (attempt ";
                       NumNat (retryCount b1 + 1); Txt ")"]) b1 in
    let '(h, b3) := setTimeout ReconnectTick delay b2 in
    set_reconnectTimer (Some h) b3.

(** The callback [scheduleReconnect] hands to [setTimeout]. *)
Definition onReconnectTick (b : Bridge) : Bridge :=
  let b1 := set_reconnectTimer None b in
  let b2 := set_isReconnecting false b1 in
  let b3 := set_retryCount (S (retryCount b2)) b2 in
  if Nat.ltb (optNat (config b3) maxRetries 3) (retryCount b3) then
    emit (EvError (Error "Max reconnect attempts reached")) b3
  else connectWebSocket b3.

(** [handleDisconnect()] *)
Definition handleDisconnect (b : Bridge) : Bridge :=
  if negb (isConnected b) then b
  else scheduleReconnect (emit EvDisconnected (set_isConnected false b)).

(** [handleError(error)] *)
Definition handleError (error : JsError) (b : Bridge) : Bridge :=
  let errorObject := JuliaBridgeError (message error) "WEBSOCKET_ERROR" in
  let b1 := emit (EvError errorObject) b in
  if isConnected b1 then handleDisconnect b1 else b1.

(** *** Heartbeat *)

(** [sendHeartbeat()] at time [now] *)
Definition sendHeartbeat (now : Z) (b : Bridge) : Bridge :=
  if negb (isConnected b) || match ws b with Some _ => false | None => true end
  then b
  else
    match wsSend (HeartbeatFrame now) b with
    | (None, b1) => b1
    | (Some err, b1) =>
        handleDisconnect
          (log (ConsoleError [Txt "Failed to send heartbeat:"; ErrObj (Error err)]) b1)
    end.

(** [startHeartbeat()] *)
Definition startHeartbeat (now : Z) (b : Bridge) : Bridge :=
  let b1 :=
    match heartbeatTimer b with
    | Some h => clearInterval h b
    | None => b
    end in
  let interval := optZ (config b1) heartbeatInterval 30000 in
  let '(h, b2) := setInterval HeartbeatTick (inject_Z interval) b1 in
  sendHeartbeat now (set_heartbeatTimer (Some h) b2).

(** [handleHeartbeat(message)] at time [now] *)
Definition handleHeartbeat (now : Z) (b : Bridge) : Bridge :=
  set_lastHeartbeat now b.

(** *** WebSocket requests and the outbound queue *)

(** The branch of [sendMessage] taken while disconnected. *)
Definition enqueueMessage (message : JsMap.t Json) (now : Z) (b : Bridge)
  : PromiseId * Bridge :=
  let '(p, b1) := newPromise b in
  if Nat.leb (optNat (config b1) maxQueueSize 1000) (length (messageQueue b1)) then
    (p, settle p (Rejected (Error "Message queue full")) b1)
  else
    (p, set_messageQueue (messageQueue b1 ++ [QueueItem.mk message p p now]) b1).

(** [this.config.options?.artificialDelay], when truthy. *)
Definition truthyArtificialDelay (c : JuliaBridgeConfig) : option Z :=
  match options c with
  | Some o =>
      match artificialDelay o with
      | Some d => if truthyZ d then Some d else None
      | None => None
      end
  | None => None
  end.

(** [{ id: requestId, ...message }] *)
Definition requestMessageOf (requestId : string) (message : JsMap.t Json)
  : JsMap.t Json :=
  fold_left (fun acc kv => JsMap.set (fst kv) (snd kv) acc) message
            [("id", JStr requestId)].

(** The branch of [sendMessage] taken while connected; [requestId] is the
    uuid it drew. *)
Definition transmitMessage (requestId : string) (message : JsMap.t Json)
  (b : Bridge) : PromiseId * Bridge :=
  let '(p, b1) := newPromise b in
  let requestMessage := requestMessageOf requestId message in
  let '(h, b2) :=
    setTimeout (RequestTimeout requestId p)
               (inject_Z (optZ (config b1) opt_timeout 30000)) b1 in
  let b3 :=
    set_pendingRequests
      (JsMap.set requestId (PendingRequest.mk p p (Some h)) (pendingRequests b2))
      b2 in
  match truthyArtificialDelay (config b3) with
  | Some d =>
      (p, snd (setTimeout (DelayedSend (RequestFrame requestMessage))
                          (inject_Z d) b3))
  | None =>
      match ws b3 with
      | Some _ =>
          match wsSend (RequestFrame requestMessage) b3 with
          | (None, b4) => (p, b4)
          | (Some err, b4) => (p, settle p (Rejected (Error err)) b4)
          end
      | None => (p, b3)
      end
  end.

(** [sendMessage(message)] at time [now]; returns the promise.  (In the
    class only [processQueuedMessages] calls it.) *)
Definition sendMessage (message : JsMap.t Json) (now : Z) (b : Bridge)
  : Async PromiseId :=
  if negb (isConnected b) then
    let '(p, b1) := enqueueMessage message now b in Ret b1 p
  else
    Uuid (fun requestId =>
      let '(p, b1) := transmitMessage requestId message b in Ret b1 p).

(** The callback of the deadline timer of a request. *)
Definition onRequestTimeout (requestId : string) (p : PromiseId) (b : Bridge)
  : Bridge :=
  settle p (Rejected (Error "Request timeout"))
    (set_pendingRequests (JsMap.delete requestId (pendingRequests b)) b).

(** The callback of an [artificialDelay] timer. *)
Definition onDelayedSend (frame : WsFrame) (b : Bridge) : Bridge :=
  match ws b with
  | Some _ => snd (wsSend frame b)
  | None => b
  end.

(** [now - item.timestamp > maxQueueAge] *)
Definition expired (now maxQueueAge : Z) (item : QueueItem.t) : bool :=
  (maxQueueAge <? now - QueueItem.timestamp item)%Z.

(** [promise.then(item.resolve).catch(item.reject)] *)
Definition chain (p : PromiseId) (item : QueueItem.t) (b : Bridge) : Bridge :=
  match find (fun ps => Nat.eqb (fst ps) p) (settled b) with
  | Some (_, Resolved v) => call (QueueItem.resolve item) (Resolved v) b
  | Some (_, Rejected e) => call (QueueItem.reject item) (Rejected e) b
  | None => set_thenLinks (thenLinks b ++ [(p, item)]) b
  end.

(** The [for] loop of [processQueuedMessages]. *)
Fixpoint resendAll (queue : list QueueItem.t) (now : Z) (b : Bridge)
  : Async unit :=
  match queue with
  | [] => Ret b tt
  | item :: rest =>
      bind (sendMessage (QueueItem.message item) now b)
           (fun b1 p => resendAll rest now (chain p item b1))
  end.

(** [processQueuedMessages()] at time [now] *)
Definition processQueuedMessages (now : Z) (b : Bridge) : Async unit :=
  let maxQueueAge := optZ (config b) opt_timeout 30000 in
  (* the filter callback rejects the expired items as it meets them *)
  let b1 :=
    fold_left
      (fun acc item =>
         if expired now maxQueueAge item
         then settle (QueueItem.reject item) (Rejected (Error "Message expired")) acc
         else acc)
      (messageQueue b) b in
  let kept := filter (fun item => negb (expired now maxQueueAge item))
                     (messageQueue b) in
  let queue := kept in
  resendAll queue now (set_messageQueue [] (set_messageQueue kept b1)).

(** *** Socket handlers *)

(** [ws.on('open')]: the socket reports that it is open. *)
Definition wsOnOpen (now : Z) (b : Bridge) : Async unit :=
  let b0 := set_ws (Some OPEN) b in
  let b1 := set_isConnected true b0 in
  let b2 := set_retryCount 0 b1 in
  let b3 := emit EvConnected b2 in
  bind (processQueuedMessages now b3)
       (fun b4 _ => Ret (startHeartbeat now b4) tt).

(** [ws.on('message')]: [None] is a frame [JSON.parse] rejects. *)
Definition wsOnMessage (data : option JuliaResponse.t) (now : Z) (b : Bridge)
  : Bridge :=
  match data with
  | None => log (ConsoleError [Txt "Failed to parse message:"]) b
  | Some m =>
      if String.eqb (JuliaResponse.type m) "heartbeat" then handleHeartbeat now b
      else
        let requestId := JuliaResponse.id m in
        let b3 :=
          match JsMap.get requestId (pendingRequests b) with
          | Some pendingRequest =>
              let b1 :=
                match PendingRequest.timeout pendingRequest with
                | Some h => clearTimeout h b
                | None => b
                end in
              let b2 :=
                set_pendingRequests
                  (JsMap.delete requestId (pendingRequests b1)) b1 in
              if truthyOptString (JuliaResponse.error m) then
                settle (PendingRequest.reject pendingRequest)
                  (Rejected (Error (match JuliaResponse.error m with
                                    | Some s => s
                                    | None => ""
                                    end))) b2
              else
                settle (PendingRequest.resolve pendingRequest)
                  (Resolved (VResponse m)) b2
          | None => b
          end in
        emit (EvMessage m) b3
  end.

(** [ws.on('error')] *)
Definition wsOnError (error : JsError) (b : Bridge) : Bridge :=
  handleError error
    (log (ConsoleError [Txt "WebSocket error:"; ErrObj error]) b).

(** [ws.on('close')]: the socket reports that it is closed. *)
Definition wsOnClose (b : Bridge) : Bridge :=
  handleDisconnect (set_ws (Some CLOSED) b).

(** *** Waiting for the connection *)

(** [waitForConnection()] *)
Definition waitForConnection (b : Bridge) : Async unit :=
  if isConnected b then Ret b tt
  else
    let '(p, b1) := newPromise b in
    let '(h, b2) :=
      setTimeout (ConnectionTimeout p)
                 (inject_Z (optZ (config b1) opt_timeout 30000)) b1 in
    let b3 := set_connectionWaiters (connectionWaiters b2 ++ [(p, h)]) b2 in
    Await b3 p (fun b' s =>
      match s with
      | Resolved _ => Ret b' tt
      | Rejected e => Throw b' e
      end).

(** The callback of the timer of [waitForConnection]. *)
Definition onConnectionTimeout (p : PromiseId) (b : Bridge) : Bridge :=
  settle p (Rejected (Error "Connection timeout"))
    (set_connectionWaiters
       (filter (fun w => negb (Nat.eqb (fst w) p)) (connectionWaiters b)) b).

(** *** Process-level reconnection *)

(** [this.reconnectDelay * Math.pow(2, this.reconnectAttempts - 1)] *)
Definition reinitializeDelay (b : Bridge) : Q :=
  (inject_Z (reconnectDelay b)
   * Qpower 2 (Z.of_nat (reconnectAttempts b) - 1))%Q.

(** [handleReconnect()] *)
Definition handleReconnect (b : Bridge) : Bridge :=
  if Nat.ltb (reconnectAttempts b) (maxReconnectAttempts b) then
    let b1 := set_reconnectAttempts (S (reconnectAttempts b)) b in
    let delay := reinitializeDelay b1 in
    let b2 :=
      log (ConsoleLog [Txt "Reconnect attempt "; NumNat (reconnectAttempts b1);
                       Txt " in "; NumQ delay; Txt "ms"]) b1 in
    let b3 := emit (EvReconnecting (reconnectAttempts b2) delay) b2 in
    snd (setTimeout Reinitialize delay b3)
  else
    emit (EvReconnectFailed (reconnectAttempts b))
      (log (ConsoleError [Txt "Failed to reconnect after ";
                          NumNat (reconnectAttempts b); Txt " attempts"]) b).

(** [this.juliaProcess && this.juliaProcess.stdin] *)
Definition processStdin (b : Bridge) : option Stdin :=
  match juliaProcess b with
  | Some proc => stdin proc
  | None => None
  end.

Section Commands.

(** [JSON.stringify(commandObj).length] and [Date.prototype.toISOString]
      belong to the language, not to the repository. *)
Variable stringifyLength : CommandObj.t -> N.
Variable toISOString : Z -> string.

(** *** Commands over the child's standard input *)

(** [reject], as the closures of [sendCommand] see it after it has been
      reassigned: the failure is announced, then the promise is rejected.
      (The event's [duration] is not modelled.) *)
Definition rejectTracked (command : string) (p : PromiseId) (reason : JsError)
  (b : Bridge) : Bridge :=
  settle p (Rejected reason)
    (emit (EvCommandExecuted command false (Some reason)) b).

(** [this.pendingCommands.delete(commandId); clearTimeout(commandTimeout);
      reject(reason)] *)
Definition abandon (commandId command : string) (p : PromiseId)
  (commandTimeout : TimerId) (reason : JsError) (b : Bridge) : Bridge :=
  rejectTracked command p reason
    (clearTimeout commandTimeout
       (set_pendingCommands (JsMap.delete commandId (pendingCommands b)) b)).

(** The executor of the promise [sendCommand] returns; [commandId] is the
      uuid it drew.  The table entry holds the callbacks as they are before
      the reassignment. *)
Definition sendCommandExecutor (commandId command : string)
  (data : CommandData) (b : Bridge) : PromiseId * Bridge :=
  let '(p, b1) := newPromise b in
  let '(commandTimeout, b2) :=
    setTimeout (CommandTimeout commandId command p)
               (inject_Z (timeout b1)) b1 in
  let b3 :=
    set_pendingCommands
      (JsMap.set commandId (PendingCommand.mk p p commandTimeout)
                 (pendingCommands b2)) b2 in
  let commandObj := CommandObj.mk commandId command data in
  let len := stringifyLength commandObj in
  if (10 * 1024 * 1024 <? len)%N then
    (p, abandon commandId command p commandTimeout
          (JuliaBridgeError
             ("Command data too large: " ++ toFixed2MB len ++ "MB")
             "DATA_TOO_LARGE") b3)
  else
    match processStdin b3 with
    | None =>
        (p, abandon commandId command p commandTimeout
              (JuliaBridgeError "Julia process stdin not available"
                                "PROCESS_ERROR") b3)
    | Some pipe =>
        if negb (writable pipe) then
          let b4 :=
            abandon commandId command p commandTimeout
              (JuliaBridgeError "Julia process stdin not writable"
                                "PROCESS_ERROR") b3 in
          (p, if autoReconnect b4 && negb (isReconnecting b4)
              then handleReconnect b4 else b4)
        else
          match writeThrows pipe with
          | Some msg =>
              (p, abandon commandId command p commandTimeout
                    (JuliaBridgeError ("Failed to send command: " ++ msg)
                                      "COMMAND_SEND_ERROR") b3)
          | None =>
              let b4 := set_stdinLog (stdinLog b3 ++ [CommandLine commandObj]) b3 in
              (p, if writeReturns pipe then b4
                  else log (ConsoleWarn [Txt "Write backpressure detected"]) b4)
          end
    end.

(** [await this.sendCommand(command, data)] *)
Definition sendCommand (command : string) (data : CommandData) (b : Bridge)
  : Async Value :=
  if negb (isInitialized b)
     || match processStdin b with Some _ => false | None => true end
  then
    Throw b (JuliaBridgeError
               "Julia bridge is not initialized or process not running"
               "NOT_INITIALIZED")
  else
    Uuid (fun commandId =>
      let '(p, b1) := sendCommandExecutor commandId command data b in
      await b1 p).

(** The callback of the deadline timer of a command. *)
Definition onCommandTimeout (commandId command : string) (p : PromiseId)
  (b : Bridge) : Bridge :=
  if JsMap.has commandId (pendingCommands b) then
    rejectTracked command p
      (JuliaBridgeError ("Command timed out: " ++ command) "COMMAND_TIMEOUT")
      (set_pendingCommands (JsMap.delete commandId (pendingCommands b)) b)
  else b.

(** The callback of [stdin.write], when the write failed with [msg]. *)
Definition onWriteError (commandId command : string) (p : PromiseId)
  (commandTimeout : TimerId) (msg : string) (b : Bridge) : Bridge :=
  let b1 :=
    abandon commandId command p commandTimeout
      (JuliaBridgeError ("Failed to send command: " ++ msg) "WRITE_ERROR") b in
  if autoReconnect b1 && negb (isReconnecting b1)
  then handleReconnect b1 else b1.

(** The ['drain'] listener. *)
Definition onDrain (b : Bridge) : Bridge :=
  log (ConsoleLog [Txt "Write backpressure relieved"]) b.

(** *** Lifecycle *)

(** [spawn(...)]: a fresh child with a writable standard input. *)
Definition spawn (b : Bridge) : Bridge :=
  set_juliaProcess
    (Some {| stdin := Some {| writable := true; writeThrows := None;
                              writeReturns := true |};
             exitCode := None; killed := false |}) b.

(** [initialize()] *)
Definition initialize (b : Bridge) : Async unit :=
  if isInitialized b then Ret b tt
  else
    tryCatch
      (bind (waitForConnection (spawn b))
         (fun b1 _ =>
            let b2 := set_isInitialized true b1 in
            let b3 := set_reconnectAttempts 0 b2 in
            let b4 := emit EvInitialized b3 in
            Ret (log (ConsoleLog [Txt "Julia bridge initialized successfully"]) b4)
                tt))
      (fun b1 error =>
         let b2 :=
           log (ConsoleError [Txt "Failed to initialize Julia bridge:";
                              ErrObj error]) b1 in
         if autoReconnect b2
            && Nat.ltb (reconnectAttempts b2) (maxReconnectAttempts b2)
         then
           let b3 := set_reconnectAttempts (S (reconnectAttempts b2)) b2 in
           let delay := reinitializeDelay b3 in
           let b4 :=
             log (ConsoleLog [Txt "Reconnect attempt ";
                              NumNat (reconnectAttempts b3);
                              Txt " in "; NumQ delay; Txt "ms"]) b3 in
           let b5 := emit (EvReconnecting (reconnectAttempts b4) delay) b4 in
           Ret (snd (setTimeout Reinitialize delay b5)) tt
         else
           Throw b2
             (JuliaBridgeError
                ("Failed to initialize Julia bridge after "
                 ++ natToString (reconnectAttempts b2) ++ " attempts: "
                 ++ message error)
                "INITIALIZATION_FAILED")).

(** *** Swarm operations *)

(** [createSwarm(config)] *)
Definition createSwarm (config : SwarmConfig.t) (b : Bridge) : Async string :=
  if negb (isInitialized b) then
    Throw b (JuliaBridgeError "Julia bridge is not initialized" "NOT_INITIALIZED")
  else
    tryCatch
      (let continue := fun swarmId : string =>
         let swarmConfig := SwarmConfig.withId config swarmId in
         bind (sendCommand "start_swarm" (StartSwarmData swarmConfig) b)
           (fun b1 _ =>
              let b2 :=
                set_activeSwarms
                  (JsMap.set swarmId swarmConfig (activeSwarms b1)) b1 in
              Ret (emit (EvSwarmCreated swarmId swarmConfig) b2) swarmId) in
       (* config.id || uuidv4() *)
       match SwarmConfig.id config with
       | Some s => if truthyString s then continue s else Uuid continue
       | None => Uuid continue
       end)
      (fun b1 error =>
         Throw b1 (JuliaBridgeError ("Failed to create swarm: " ++ message error)
                                    "SWARM_CREATION_ERROR")).

(** The loop of [stopSwarm()] over [Array.from(this.activeSwarms.keys())]. *)
Fixpoint stopAll (swarmIds : list string) (b : Bridge) : Async unit :=
  match swarmIds with
  | [] => Ret b tt
  | id :: rest =>
      bind (sendCommand "stop_swarm" (StopSwarmData id) b)
        (fun b1 _ =>
           stopAll rest
             (emit (EvSwarmStopped id)
                (set_activeSwarms (JsMap.delete id (activeSwarms b1)) b1)))
  end.

(** [stopSwarm(swarmId?)] *)
Definition stopSwarm (swarmId : option string) (b : Bridge) : Async unit :=
  if negb (isInitialized b) then
    Throw b (JuliaBridgeError "Julia bridge is not initialized" "NOT_INITIALIZED")
  else
    tryCatch
      (match swarmId with
       | Some id =>
           if truthyString id then
             if negb (JsMap.has id (activeSwarms b)) then
               Throw b (JuliaBridgeError ("Swarm not found: " ++ id)
                                         "SWARM_NOT_FOUND")
             else
               bind (sendCommand "stop_swarm" (StopSwarmData id) b)
                 (fun b1 _ =>
                    Ret (emit (EvSwarmStopped id)
                           (set_activeSwarms
                              (JsMap.delete id (activeSwarms b1)) b1)) tt)
           else stopAll (JsMap.keys (activeSwarms b)) b
       | None => stopAll (JsMap.keys (activeSwarms b)) b
       end)
      (fun b1 error =>
         Throw b1 (JuliaBridgeError ("Failed to stop swarm: " ++ message error)
                                    "SWARM_STOP_ERROR")).

(** [point => ({ ...point, timestamp: ... })] *)
Definition isoTimestamp (point : MarketDataPoint) : MarketDataPoint :=
  {| symbol := symbol point;
     price := price point;
     volume := volume point;
     timestamp :=
       match timestamp point with
       | TsDate d => TsString (toISOString d)
       | TsString s => TsString s
       end;
     indicators := indicators point |}.

(** [optimizeSwarm(input)] *)
Definition optimizeSwarm (input : SwarmOptimizationInput) (b : Bridge)
  : Async Value :=
  if negb (isInitialized b) then
    Throw b (JuliaBridgeError "Julia bridge is not initialized" "NOT_INITIALIZED")
  else
    tryCatch
      (if negb (JsMap.has (swarmId input) (activeSwarms b)) then
         Throw b (JuliaBridgeError ("Swarm not found: " ++ swarmId input)
                                   "SWARM_NOT_FOUND")
       else
         let marketData := map isoTimestamp (marketData input) in
         bind (sendCommand "optimize_swarm"
                 (OptimizeSwarmData (swarmId input) marketData
                    (tradingPairs input) (riskParameters input)) b)
           (fun b1 result =>
              Ret (emit (EvSwarmOptimized (swarmId input) result) b1) result))
      (fun b1 error =>
         Throw b1 (JuliaBridgeError ("Optimization error: " ++ message error)
                                    "OPTIMIZATION_ERROR")).

(** [getSwarmStatus(swarmId)] *)
Definition getSwarmStatus (swarmId : string) (b : Bridge) : Async Value :=
  if negb (isInitialized b) then
    Throw b (JuliaBridgeError "Julia bridge is not initialized" "NOT_INITIALIZED")
  else
    tryCatch
      (if negb (JsMap.has swarmId (activeSwarms b)) then
         Throw b (JuliaBridgeError ("Swarm not found: " ++ swarmId)
                                   "SWARM_NOT_FOUND")
       else sendCommand "get_swarm_status" (SwarmStatusData swarmId) b)
      (fun b1 error =>
         Throw b1 (JuliaBridgeError
                     ("Failed to get swarm status: " ++ message error)
                     "STATUS_ERROR")).

(** [getActiveSwarms()] *)
Definition getActiveSwarms (b : Bridge) : list string :=
  JsMap.keys (activeSwarms b).

(** [executeCode(code)] *)
Definition executeCode (code : string) (b : Bridge) : Async Value :=
  if negb (isInitialized b) then
    Throw b (JuliaBridgeError "Julia bridge is not initialized" "NOT_INITIALIZED")
  else
    tryCatch
      (sendCommand "execute_code" (ExecuteCodeData code) b)
      (fun b1 error =>
         Throw b1 (JuliaBridgeError ("Code execution error: " ++ message error)
                                    "CODE_EXECUTION_ERROR")).

(** *** Shutdown *)

(** The first loop of [shutdown()]: every pending command is rejected
    through the callback stored in the table, its timer cleared. *)
Definition cancelPendingCommands (b : Bridge) : Bridge :=
  fold_left
    (fun acc pc =>
       settle (PendingCommand.reject pc)
         (Rejected (JuliaBridgeError "Bridge shutdown" "BRIDGE_SHUTDOWN"))
         (clearTimeout (PendingCommand.timeout pc) acc))
    (JsMap.values (pendingCommands b)) b.

(** The second loop of [shutdown()].  The loop walks the keys the registry
    holds when it starts; a key that is gone when its turn comes is passed
    over, as the live iterator of the map does. *)
Fixpoint stopEach (swarmIds : list string) (b : Bridge) : Async unit :=
  match swarmIds with
  | [] => Ret b tt
  | swarmId :: rest =>
      if JsMap.has swarmId (activeSwarms b) then
        bind
          (tryCatch (stopSwarm (Some swarmId) b)
             (fun b1 error =>
                Ret (log (ConsoleError
                            [Txt ("Failed to stop swarm " ++ swarmId
                                  ++ " during shutdown:"); ErrObj error]) b1)
                    tt))
          (fun b1 _ => stopEach rest b1)
      else stopEach rest b
  end.

(** What [shutdown()] does once the sessions are dealt with: the registry
    is cleared, the exit request written, the kill timer armed, and the
    bridge marked as not initialized. *)
Definition finishShutdown (b3 : Bridge) : Bridge :=
  let b4 := set_activeSwarms (JsMap.clear (activeSwarms b3)) b3 in
  let b5 :=
    match processStdin b4 with
    | Some _ => set_stdinLog (stdinLog b4 ++ [RawLine ("exit()" ++ newline)]) b4
    | None => b4
    end in
  let b6 := snd (setTimeout KillProcess 1000%Q b5) in
  let b7 := set_isInitialized false b6 in
  let b8 := emit EvShutdown b7 in
  log (ConsoleLog [Txt "Julia bridge shut down successfully"]) b8.

(** [shutdown()] *)
Definition shutdown (b : Bridge) : Async unit :=
  if negb (isInitialized b) then Ret b tt
  else
    tryCatch
      (let b1 := cancelPendingCommands b in
       let b2 := set_pendingCommands (JsMap.clear (pendingCommands b1)) b1 in
       bind (stopEach (JsMap.keys (activeSwarms b2)) b2)
         (fun b3 _ => Ret (finishShutdown b3) tt))
      (fun b1 error =>
         Throw b1 (JuliaBridgeError ("Shutdown error: " ++ message error)
                                    "SHUTDOWN_ERROR")).

(** The callback of the timer [shutdown] arms. *)
Definition onKillProcess (b : Bridge) : Bridge :=
  match juliaProcess b with
  | Some proc =>
      set_juliaProcess
        (Some {| stdin := stdin proc; exitCode := exitCode proc;
                 killed := true |}) b
  | None => b
  end.

(** *** Handlers of the child process *)

(** [stdout.on('data')]; [serverStarted] tells whether the chunk contains
    the ready marker. *)
Definition onStdoutData (serverStarted : bool) (text : string) (b : Bridge)
  : Bridge :=
  let b1 := if serverStarted then connectWebSocket b else b in
  if optDebug (config b1) then log (ConsoleLog [Txt "Julia output:"; Txt text]) b1
  else b1.

(** [juliaProcess.on('error')] *)
Definition onProcessError (error : JsError) (b : Bridge) : Bridge :=
  handleError error
    (log (ConsoleError [Txt "Failed to start Julia process:"; ErrObj error]) b).

(** [juliaProcess.on('exit')] *)
Definition onProcessExit (exit : Z) (b : Bridge) : Bridge :=
  handleDisconnect
    (log (ConsoleLog [Txt "Julia process exited with code "; NumZ exit]) b).

(** *** Timers *)

(** The runtime fires the timer with handle [h] at time [now]. *)
Definition fireTimer (h : TimerId) (now : Z) (b : Bridge) : Async unit :=
  match find (fun t => Nat.eqb (handle t) h) (timers b) with
  | None => Ret b tt
  | Some t =>
      let b1 := if repeating t then b else clearTimeout h b in
      match callback t with
      | CommandTimeout commandId command p =>
          Ret (onCommandTimeout commandId command p b1) tt
      | RequestTimeout requestId p => Ret (onRequestTimeout requestId p b1) tt
      | DelayedSend frame => Ret (onDelayedSend frame b1) tt
      | ReconnectTick => Ret (onReconnectTick b1) tt
      | HeartbeatTick => Ret (sendHeartbeat now b1) tt
      | KillProcess => Ret (onKillProcess b1) tt
      | Reinitialize =>
          (* this.initialize().catch(e => this.emit('error', ...)) *)
          tryCatch (initialize b1)
            (fun b2 e =>
               Ret (emit (EvError (JuliaBridgeError
                                     ("Reconnect failed: " ++ message e)
                                     "RECONNECT_FAILED")) b2) tt)
      | ConnectionTimeout p => Ret (onConnectionTimeout p b1) tt
      end
  end.

End Commands.

(** ** Errors the claims name *)

Definition notInitialized : JsError :=
  JuliaBridgeError "Julia bridge is not initialized" "NOT_INITIALIZED".

Definition dataTooLarge (len : N) : JsError :=
  JuliaBridgeError ("Command data too large: " ++ toFixed2MB len ++ "MB")
                   "DATA_TOO_LARGE".

Definition commandTimedOut (command : string) : JsError :=
  JuliaBridgeError ("Command timed out: " ++ command) "COMMAND_TIMEOUT".

Definition bridgeShutdown : JsError :=
  JuliaBridgeError "Bridge shutdown" "BRIDGE_SHUTDOWN".

(** ** Worlds *)

(** A world given by what happens to the bridge while the method waits: the
    method resumes with whatever was passed to the callback of its promise. *)
Definition worldOf (step : Bridge -> PromiseId -> Bridge) : World :=
  fun b p =>
    let b' := step b p in
    match find (fun ps => Nat.eqb (fst ps) p) (settled b') with
    | Some (_, s) => Some (b', s)
    | None => None
    end.

(** The timer, if any, that guards the command whose promise is [p]. *)
Definition deadlineOf (p : PromiseId) (b : Bridge) : option Timer :=
  find (fun t =>
          match callback t with
          | CommandTimeout _ _ q => Nat.eqb q p
          | _ => false
          end) (timers b).

(** The world in which the child never answers: the only thing that happens
    to a waiting command is that its deadline timer fires. *)
Definition silentWorld : World :=
  worldOf (fun b p =>
    match deadlineOf p b with
    | Some t =>
        match callback t with
        | CommandTimeout commandId command q =>
            onCommandTimeout commandId command q (clearTimeout (handle t) b)
        | _ => b
        end
    | None => b
    end).

(** ** A concrete runtime for examples *)

(** A serialiser that is generous with programs: every character of the
    code of an [execute_code] command takes a mebibyte. *)
Definition exampleLength (obj : CommandObj.t) : N :=
  match CommandObj.data obj with
  | ExecuteCodeData code => 64 + 1048576 * N.of_nat (String.length code)
  | _ => 64
  end.

Definition exampleISO (epochMs : Z) : string := "1970-01-01T00:00:00.000Z".

Definition exampleUuid (i : nat) : string := "uuid-" ++ natToString i.

(** A bridge after a successful [initialize()]: the child runs, the socket
    is open. *)
Definition readyBridge : Bridge :=
  set_isInitialized true
    (set_isConnected true
       (set_ws (Some OPEN) (spawn (constructor None None None)))).

Definition exampleSwarm (name : string) : SwarmConfig.t :=
  SwarmConfig.mk (Some name) None 20%Q pso
    (mkSwarmParameters 1%Q (1 # 10)%Q (2 # 10)%Q (3 # 10)%Q None None None).

(** [readyBridge] with two registered swarms. *)
Definition twoSwarms : Bridge :=
  set_activeSwarms
    (JsMap.set "s2" (exampleSwarm "s2")
       (JsMap.set "s1" (exampleSwarm "s1") JsMap.empty))
    readyBridge.

(** ** Stages of a bridge *)

Definition extends {A} (l l' : list A) : Prop := exists extra, l' = l ++ extra.

(** [Later b b']: between [b] and [b'] nobody touched the registry or the
    lifecycle flag, and the logs only grew. *)
Record Later (b b' : Bridge) : Prop := mkLater {
  later_swarms : activeSwarms b' = activeSwarms b;
  later_initialized : isInitialized b' = isInitialized b;
  later_emitted : extends (emitted b) (emitted b');
  later_console : extends (console b) (console b');
  later_settled : extends (settled b) (settled b');
  later_stdin : extends (stdinLog b) (stdinLog b')
}.

(** A world that, while a method waits, leaves the registry and the
    lifecycle flag alone and writes nothing to the child. *)
Definition Quiet (world : World) : Prop :=
  forall b p b' s,
    world b p = Some (b', s) -> Later b b' /\ stdinLog b' = stdinLog b.

(** A world in which every promise a method waits for is settled. *)
Definition Responsive (world : World) : Prop :=
  forall b p, world b p <> None.

(** [silentWorld], completed for promises without a deadline timer. *)
Definition deadlineWorld : World :=
  fun b p =>
    match silentWorld b p with
    | Some r => Some r
    | None => Some (b, Rejected (Error "abandoned"))
    end.

(** [console.error] of the [catch] in the loop of [shutdown]. *)
Definition stopFailureLogged (swarmId : string) (b : Bridge) : Prop :=
  exists error,
    In (ConsoleError [Txt ("Failed to stop swarm " ++ swarmId
                           ++ " during shutdown:"); ErrObj error])
       (console b).

(** [for (id of ids) m.delete(id)] *)
Definition deleteAll {V} (ids : list string) (m : JsMap.t V) : JsMap.t V :=
  fold_left (fun acc id => JsMap.delete id acc) ids m.

Definition isSuspended {R} (o : Outcome R) : bool :=
  match o with Suspended _ _ => true | _ => false end.

(** [stopSwarm()] gave up between [b] and [b']: the sessions before the one
    that failed are gone, the failing one and those after it are still
    registered, and at most one line per attempted session was written. *)
Definition abortedAt (b b' : Bridge) : Prop :=
  exists done failed rest,
    JsMap.keys (activeSwarms b) = done ++ failed :: rest
    /\ activeSwarms b' = deleteAll done (activeSwarms b)
    /\ (forall id, In id (failed :: rest) -> ~ In id done ->
                   JsMap.has id (activeSwarms b') = true)
    /\ length (stdinLog b') <= length (stdinLog b) + length done + 1.

Definition exampleInput (swarmId : string) : SwarmOptimizationInput :=
  mkSwarmOptimizationInput swarmId [] ["ETH/USD"]
    (mkRiskParameters 1%Q (1 # 10)%Q (2 # 10)%Q (3 # 10)%Q).

(** ** Reconnection examples *)

(** A bridge that is not initialized yet and whose socket failed to open
    [n] times in a row. *)
Definition retrying (n : nat) : Bridge :=
  set_retryCount n (constructor None None None).

(** The world in which whatever a method waits for succeeds at once and
    leaves no trace. *)
Definition obligingWorld : World :=
  fun b _ => Some (b, Resolved VUndefined).

(** ** The heartbeat seen from outside *)

(** What can happen to the monitor while the socket stays open: its interval
    timer ticks, or a heartbeat-kind message arrives. *)
Inductive HeartbeatEvent : Type :=
| HbTick (now : Z)
| HbSeen (now : Z).

Definition heartbeatMessage : JuliaResponse.t :=
  JuliaResponse.mk "" "heartbeat" JNull None None.

Definition heartbeatStep (b : Bridge) (ev : HeartbeatEvent) : Bridge :=
  match ev with
  | HbTick now => sendHeartbeat now b
  | HbSeen now => wsOnMessage (Some heartbeatMessage) now b
  end.

(** ** The queue seen from outside *)

(** The frames [processQueuedMessages] sends for [items], in order, when the
    next uuid to be drawn is [uuid n]. *)
Fixpoint framesFrom (uuid : nat -> string) (n : nat) (items : list QueueItem.t)
  : list WsFrame :=
  match items with
  | [] => []
  | item :: rest =>
      RequestFrame (requestMessageOf (uuid n) (QueueItem.message item))
      :: framesFrom uuid (S n) rest
  end.

Definition exampleMessage (command : string) : JsMap.t Json :=
  [("type", JStr command)].

(** A disconnected bridge holding three messages, queued at times 0, 40000
    and 50000. *)
Definition queuedBridge : Bridge :=
  snd (enqueueMessage (exampleMessage "third") 50000
         (snd (enqueueMessage (exampleMessage "second") 40000
                 (snd (enqueueMessage (exampleMessage "first") 0
                         (set_isConnected false
                            (set_ws (Some CLOSED) readyBridge))))))).

(** ** Responses seen from outside *)

(** The answer of the child to the command with id ["uuid-0"]. *)
Definition exampleAnswer : JuliaResponse.t :=
  JuliaResponse.mk "uuid-0" "response" (JNum 2%Q) None None.

(** The world in which nothing ever happens. *)
Definition frozenWorld : World := fun _ _ => None.

(** The world in which the answer arrives on the socket at time 1000. *)
Definition answeringWorld : World :=
  worldOf (fun b _ => wsOnMessage (Some exampleAnswer) 1000 b).

(** The world in which the answer arrives and, later, the deadline of the
    waiting command passes. *)
Definition answerThenDeadlineWorld : World :=
  fun b p => silentWorld (wsOnMessage (Some exampleAnswer) 1000 b) p.

(** ** The correlator seen from outside *)

(** What can happen to the table of pending commands: a caller issues a
    command (the uuid it drew is [commandId]), a deadline timer fires, or a
    frame arrives on the socket. *)
Inductive CorrelatorEvent : Type :=
| CeSend (commandId command : string) (data : CommandData)
| CeDeadline (h : TimerId)
| CeMessage (data : option JuliaResponse.t) (now : Z).

Section Correlator.

Variable len : CommandObj.t -> N.

(** [CeSend] is [sendCommand] up to the point where its caller is suspended;
    [CeDeadline h] is what [fireTimer] does for the deadline timer of a
    command; [CeMessage] is the socket's message handler. *)
Definition correlatorStep (b : Bridge) (ev : CorrelatorEvent) : Bridge :=
  match ev with
  | CeSend commandId command data =>
      final (run (fun _ => commandId) frozenWorld
                 (sendCommand len command data b))
  | CeDeadline h =>
      match find (fun t => Nat.eqb (handle t) h) (timers b) with
      | Some t =>
          match callback t with
          | CommandTimeout commandId command p =>
              onCommandTimeout commandId command p
                (if repeating t then b else clearTimeout h b)
          | _ => b
          end
      | None => b
      end
  | CeMessage data now => wsOnMessage data now b
  end.

End Correlator.

(** The shape of the runtime in every state the class can reach through
    commands: no WebSocket request is pending (nothing calls [sendMessage]),
    timer handles and promise handles are fresh, the deadline timer of a
    command is armed only while its promise is untouched, two timers never
    guard the same promise, and no promise callback was invoked twice. *)
Record Correlated (b : Bridge) : Prop := mkCorrelated {
  cor_requests : pendingRequests b = [];
  cor_links : thenLinks b = [];
  cor_handles : forall t, In t (timers b) -> handle t < nextTimer b;
  cor_nodup : NoDup (map handle (timers b));
  cor_settled : forall p s, In (p, s) (settled b) -> p < nextPromise b;
  cor_timer :
    forall t commandId command p,
      In t (timers b) ->
      callback t = CommandTimeout commandId command p ->
      p < nextPromise b /\ callCount p b = 0 /\ repeating t = false;
  cor_unique :
    forall t1 t2 c1 m1 c2 m2 p,
      In t1 (timers b) -> In t2 (timers b) ->
      callback t1 = CommandTimeout c1 m1 p ->
      callback t2 = CommandTimeout c2 m2 p ->
      t1 = t2;
  cor_once : forall p, callCount p b <= 1
}.

(** A bridge that has just written one command to the child. *)
Definition sentBridge : Bridge :=
  final (run exampleUuid frozenWorld
           (executeCode exampleLength "1 + 1" readyBridge)).

(** The answer to that command, arriving too late, twice. *)
Definition lateAnswers : list CorrelatorEvent :=
  [CeMessage (Some exampleAnswer) 40000; CeDeadline 0;
   CeMessage (Some exampleAnswer) 50000].

(** The timers that guard promise [p] all have handle [h]. *)
Definition guardedOnlyBy (p : PromiseId) (h : TimerId) (b : Bridge) : Prop :=
  forall t c m, In t (timers b) -> callback t = CommandTimeout c m p ->
                handle t = h.

(** [Grown b b']: like [Later], but the registry may have changed. *)
Record Grown (b b' : Bridge) : Prop := mkGrown {
  grown_initialized : isInitialized b' = isInitialized b;
  grown_emitted : extends (emitted b) (emitted b');
  grown_console : extends (console b) (console b');
  grown_settled : extends (settled b) (settled b');
  grown_stdin : extends (stdinLog b) (stdinLog b')
}.

(** What the loop of [shutdown] owes to session [id]: it was stopped, or the
    failure to stop it was logged. *)
Definition stoppedOrLogged (id : string) (b : Bridge) : Prop :=
  In (EvSwarmStopped id) (emitted b) \/ stopFailureLogged id b.

(** [twoSwarms] with one command waiting for its answer. *)
Definition busyBridge : Bridge :=
  final (run exampleUuid frozenWorld
           (executeCode exampleLength "1 + 1" twoSwarms)).

(** * Properties *)

(** ** Maps *)

Lemma JsMap_delete_set_fresh {V} (k : string) (v : V) (m : JsMap.t V) :
  JsMap.has k m = false -> JsMap.delete k (JsMap.set k v m) = m.
Proof.
  unfold JsMap.has, JsMap.delete.
  induction m as [| [k' v'] r IH]; simpl.
  - intros _. rewrite String.eqb_refl. reflexivity.
  - destruct (String.eqb k' k) eqn:E; simpl; [discriminate |].
    intros H. rewrite E. simpl. rewrite IH by exact H. reflexivity.
Qed.

Lemma JsMap_has_delete_same {V} (k : string) (m : JsMap.t V) :
  JsMap.has k (JsMap.delete k m) = false.
Proof.
  unfold JsMap.has, JsMap.delete.
  induction m as [| [k' v'] r IH]; simpl; [reflexivity |].
  destruct (String.eqb k' k) eqn:E; simpl; [exact IH |].
  rewrite E. exact IH.
Qed.

Lemma JsMap_get_delete_other {V} (k k' : string) (m : JsMap.t V) :
  k <> k' -> JsMap.get k' (JsMap.delete k m) = JsMap.get k' m.
Proof.
  intros Hne. unfold JsMap.delete.
  induction m as [| [k0 v0] r IH]; simpl; [reflexivity |].
  destruct (String.eqb k0 k) eqn:E; simpl.
  - apply String.eqb_eq in E. subst k0.
    destruct (String.eqb k k') eqn:E'; [| exact IH].
    apply String.eqb_eq in E'. contradiction.
  - destruct (String.eqb k0 k'); [reflexivity | exact IH].
Qed.

(** ** Frame lemmas: which fields a primitive leaves alone *)

Lemma fold_left_frame {A T} (proj : Bridge -> T) (f : Bridge -> A -> Bridge)
  (l : list A) :
  (forall acc x, proj (f acc x) = proj acc) ->
  forall b, proj (fold_left f l b) = proj b.
Proof.
  intros Hf. induction l as [| x r IH]; intros b; simpl; [reflexivity |].
  rewrite IH. apply Hf.
Qed.

Lemma call_frame {T} (proj : Bridge -> T) :
  (forall v b, proj (set_settled v b) = proj b) ->
  forall p s b, proj (call p s b) = proj b.
Proof. intros H p s b. unfold call. apply H. Qed.

Lemma settle_frame {T} (proj : Bridge -> T) :
  (forall v b, proj (set_settled v b) = proj b) ->
  forall p s b, proj (settle p s b) = proj b.
Proof.
  intros H p s b. unfold settle.
  destruct (negb (isSettled p b)).
  - rewrite fold_left_frame.
    + apply call_frame, H.
    + intros acc link. destruct (Nat.eqb (fst link) p); [| reflexivity].
      destruct s; apply call_frame, H.
  - apply call_frame, H.
Qed.

Lemma log_frame {T} (proj : Bridge -> T) :
  (forall v b, proj (set_console v b) = proj b) ->
  forall l b, proj (log l b) = proj b.
Proof. intros H l b. unfold log. apply H. Qed.

Lemma clearTimeout_frame {T} (proj : Bridge -> T) :
  (forall v b, proj (set_timers v b) = proj b) ->
  forall h b, proj (clearTimeout h b) = proj b.
Proof. intros H h b. unfold clearTimeout. apply H. Qed.

Lemma setTimeout_frame {T} (proj : Bridge -> T) :
  (forall v b, proj (set_timers v b) = proj b) ->
  (forall v b, proj (set_nextTimer v b) = proj b) ->
  forall cb ms b, proj (snd (setTimeout cb ms b)) = proj b.
Proof. intros H1 H2 cb ms b. unfold setTimeout. simpl. rewrite H2. apply H1. Qed.

Lemma emit_frame {T} (proj : Bridge -> T) :
  (forall v b, proj (set_emitted v b) = proj b) ->
  (forall v b, proj (set_settled v b) = proj b) ->
  (forall v b, proj (set_timers v b) = proj b) ->
  (forall v b, proj (set_connectionWaiters v b) = proj b) ->
  forall ev b, proj (emit ev b) = proj b.
Proof.
  intros He Hs Ht Hw ev b. unfold emit.
  destruct ev; try apply He.
  - rewrite fold_left_frame.
    + rewrite Hw. apply He.
    + intros acc w. rewrite settle_frame by exact Hs.
      apply clearTimeout_frame, Ht.
  - rewrite fold_left_frame.
    + rewrite Hw. apply He.
    + intros acc w. rewrite settle_frame by exact Hs.
      apply clearTimeout_frame, Ht.
Qed.

Lemma handleReconnect_frame {T} (proj : Bridge -> T) :
  (forall v b, proj (set_emitted v b) = proj b) ->
  (forall v b, proj (set_settled v b) = proj b) ->
  (forall v b, proj (set_timers v b) = proj b) ->
  (forall v b, proj (set_nextTimer v b) = proj b) ->
  (forall v b, proj (set_connectionWaiters v b) = proj b) ->
  (forall v b, proj (set_console v b) = proj b) ->
  (forall v b, proj (set_reconnectAttempts v b) = proj b) ->
  forall b, proj (handleReconnect b) = proj b.
Proof.
  intros He Hs Ht Hn Hw Hc Hr b. unfold handleReconnect.
  destruct (Nat.ltb (reconnectAttempts b) (maxReconnectAttempts b)).
  - rewrite setTimeout_frame by assumption.
    rewrite emit_frame by assumption.
    rewrite log_frame by assumption. apply Hr.
  - rewrite emit_frame by assumption. apply log_frame, Hc.
Qed.

Lemma rejectTracked_frame {T} (proj : Bridge -> T) :
  (forall v b, proj (set_emitted v b) = proj b) ->
  (forall v b, proj (set_settled v b) = proj b) ->
  (forall v b, proj (set_timers v b) = proj b) ->
  (forall v b, proj (set_connectionWaiters v b) = proj b) ->
  forall command p reason b, proj (rejectTracked command p reason b) = proj b.
Proof.
  intros He Hs Ht Hw command p reason b. unfold rejectTracked.
  rewrite settle_frame by exact Hs. apply emit_frame; assumption.
Qed.

(** Rewrites the projection [proj] through the primitives that leave it
    alone. *)
Ltac frame_with proj :=
  repeat first
    [ rewrite (settle_frame proj) by (intros; reflexivity)
    | rewrite (call_frame proj) by (intros; reflexivity)
    | rewrite (log_frame proj) by (intros; reflexivity)
    | rewrite (clearTimeout_frame proj) by (intros; reflexivity)
    | rewrite (setTimeout_frame proj) by (intros; reflexivity)
    | rewrite (rejectTracked_frame proj) by (intros; reflexivity)
    | rewrite (emit_frame proj) by (intros; reflexivity)
    | rewrite (handleReconnect_frame proj) by (intros; reflexivity) ].

Ltac frame_fields :=
  frame_with config;
  frame_with ws;
  frame_with isConnected;
  frame_with retryCount;
  frame_with messageQueue;
  frame_with reconnectTimer;
  frame_with heartbeatTimer;
  frame_with lastHeartbeat;
  frame_with isReconnecting;
  frame_with juliaProcess;
  frame_with pendingRequests;
  frame_with isInitialized;
  frame_with pendingCommands;
  frame_with activeSwarms;
  frame_with reconnectAttempts;
  frame_with maxReconnectAttempts;
  frame_with reconnectDelay;
  frame_with autoReconnect;
  frame_with timeout;
  frame_with timers;
  frame_with nextTimer;
  frame_with nextPromise;
  frame_with settled;
  frame_with thenLinks;
  frame_with connectionWaiters;
  frame_with stdinLog;
  frame_with wsLog;
  frame_with emitted;
  frame_with console.

Ltac frame :=
  repeat (progress (frame_fields;
  cbn [config ws isConnected retryCount messageQueue reconnectTimer
       heartbeatTimer lastHeartbeat isReconnecting juliaProcess pendingRequests
       isInitialized pendingCommands activeSwarms reconnectAttempts
       maxReconnectAttempts reconnectDelay autoReconnect timeout timers
       nextTimer nextPromise settled thenLinks connectionWaiters stdinLog wsLog
       emitted console
       set_ws set_isConnected set_retryCount set_messageQueue
       set_reconnectTimer set_heartbeatTimer set_lastHeartbeat
       set_isReconnecting set_juliaProcess set_pendingRequests
       set_isInitialized set_pendingCommands set_activeSwarms
       set_reconnectAttempts set_timers set_nextTimer set_nextPromise
       set_settled set_thenLinks set_connectionWaiters set_stdinLog set_wsLog
       set_emitted set_console])).

(** ** Promise callbacks *)

Lemma fold_left_settled_grows {A} (f : Bridge -> A -> Bridge) (l : list A) :
  (forall acc x, exists extra, settled (f acc x) = settled acc ++ extra) ->
  forall b, exists extra, settled (fold_left f l b) = settled b ++ extra.
Proof.
  intros Hf. induction l as [| x r IH]; intros b; simpl.
  - exists []. rewrite app_nil_r. reflexivity.
  - destruct (IH (f b x)) as [e1 H1]. destruct (Hf b x) as [e2 H2].
    exists (e2 ++ e1). rewrite H1, H2, app_assoc. reflexivity.
Qed.

Lemma settle_settled (p : PromiseId) (s : Settlement) (b : Bridge) :
  exists extra, settled (settle p s b) = settled b ++ (p, s) :: extra.
Proof.
  unfold settle. destruct (negb (isSettled p b)).
  - match goal with
    | |- context [fold_left ?f ?l ?a] =>
        assert (H : exists extra, settled (fold_left f l a) = settled a ++ extra)
    end.
    { apply fold_left_settled_grows. intros acc link.
      destruct (Nat.eqb (fst link) p).
      - destruct s; eexists; reflexivity.
      - exists []. rewrite app_nil_r. reflexivity. }
    destruct H as [extra H]. exists extra. rewrite H. simpl.
    rewrite <- app_assoc. reflexivity.
  - exists []. reflexivity.
Qed.

Lemma find_after_unsettled (p : PromiseId) (s : Settlement)
  (l extra : list (PromiseId * Settlement)) :
  existsb (fun ps => Nat.eqb (fst ps) p) l = false ->
  find (fun ps => Nat.eqb (fst ps) p) (l ++ (p, s) :: extra) = Some (p, s).
Proof.
  induction l as [| x r IH]; cbn [existsb find app fst].
  - intros _. rewrite Nat.eqb_refl. reflexivity.
  - destruct (Nat.eqb (fst x) p); cbn [orb]; [intros H; discriminate H | exact IH].
Qed.

Lemma armed_clearTimeout (h : TimerId) (b : Bridge) :
  armed h (clearTimeout h b) = false.
Proof.
  unfold armed, clearTimeout. cbn [timers set_timers].
  induction (timers b) as [| t r IH]; cbn [filter existsb]; [reflexivity |].
  destruct (Nat.eqb (handle t) h) eqn:E; cbn [negb existsb]; [exact IH |].
  rewrite E. exact IH.
Qed.

Lemma timers_emit_incl (ev : BridgeEvent) (b : Bridge) :
  incl (timers (emit ev b)) (timers b).
Proof.
  assert (Hfold : forall (f : PromiseId * TimerId -> Settlement) ws acc,
             incl (timers (fold_left
                             (fun a w => settle (fst w) (f w) (clearTimeout (snd w) a))
                             ws acc)) (timers acc)).
  { intros f ws. induction ws as [| w r IH]; intros acc; simpl.
    - apply incl_refl.
    - eapply incl_tran; [apply IH |].
      rewrite settle_frame by (intros; reflexivity).
      unfold clearTimeout. simpl. apply incl_filter. }
  unfold emit. destruct ev; try apply incl_refl.
  - eapply incl_tran; [apply (Hfold (fun _ => Resolved VUndefined)) |].
    apply incl_refl.
  - eapply incl_tran; [apply (Hfold (fun _ => Rejected e)) |].
    apply incl_refl.
Qed.

Lemma armed_incl (h : TimerId) (b b' : Bridge) :
  incl (timers b') (timers b) -> armed h b = false -> armed h b' = false.
Proof.
  unfold armed. intros Hincl Hb.
  destruct (existsb (fun t => Nat.eqb (handle t) h) (timers b')) eqn:E;
    [| reflexivity].
  apply existsb_exists in E. destruct E as [t [Hin Ht]].
  assert (existsb (fun t => Nat.eqb (handle t) h) (timers b) = true).
  { apply existsb_exists. exists t. split; [apply Hincl, Hin | exact Ht]. }
  congruence.
Qed.

(** What [abandon] does to the fields the claims look at. *)
Lemma abandon_spec (commandId command : string) (p : PromiseId)
  (h : TimerId) (reason : JsError) (b : Bridge) :
  (exists extra,
      settled (abandon commandId command p h reason b)
      = settled b ++ (p, Rejected reason) :: extra)
  /\ stdinLog (abandon commandId command p h reason b) = stdinLog b
  /\ wsLog (abandon commandId command p h reason b) = wsLog b
  /\ pendingCommands (abandon commandId command p h reason b)
     = JsMap.delete commandId (pendingCommands b)
  /\ armed h (abandon commandId command p h reason b) = false.
Proof.
  unfold abandon. repeat split.
  - unfold rejectTracked.
    match goal with
    | |- context [settle p (Rejected reason) ?X] =>
        destruct (settle_settled p (Rejected reason) X) as [extra He];
        exists extra; rewrite He
    end.
    frame. reflexivity.
  - frame. reflexivity.
  - frame. reflexivity.
  - frame. reflexivity.
  - unfold rejectTracked, armed.
    rewrite settle_frame by (intros; reflexivity).
    match goal with
    | |- existsb _ (timers (emit ?ev ?X)) = false =>
        change (armed h (emit ev X) = false);
        apply (armed_incl h X); [apply timers_emit_incl |]
    end.
    apply armed_clearTimeout.
Qed.

(** ** Commands that are too large (C9) *)

(** C9.  A command whose serialisation is longer than 10 MiB fails inside
    the bridge with [DATA_TOO_LARGE]: nothing is written to the child's
    standard input or to the socket, the table of pending commands is what
    it was before the call, the deadline timer of the command is not armed
    any more, and the promise of the command has been rejected with that
    error. *)
Theorem oversized_command_fails_locally
  (len : CommandObj.t -> N) (uuid : nat -> string) (world : World)
  (command : string) (data : CommandData) (b : Bridge) :
  isInitialized b = true ->
  processStdin b <> None ->
  (10 * 1024 * 1024 < len (CommandObj.mk (uuid O) command data))%N ->
  JsMap.has (uuid O) (pendingCommands b) = false ->
  isSettled (nextPromise b) b = false ->
  let failure := dataTooLarge (len (CommandObj.mk (uuid O) command data)) in
  exists b',
    run uuid world (sendCommand len command data b) = Threw b' failure
    /\ stdinLog b' = stdinLog b
    /\ wsLog b' = wsLog b
    /\ pendingCommands b' = pendingCommands b
    /\ armed (nextTimer b) b' = false
    /\ In (nextPromise b, Rejected failure) (settled b').
Proof.
  intros Hinit Hpipe Hlen Hfresh Hunsettled failure.
  unfold sendCommand. rewrite Hinit.
  destruct (processStdin b) as [pipe |] eqn:Hp; [| contradiction].
  unfold run. cbn [negb orb exec].
  unfold sendCommandExecutor.
  cbn [newPromise setTimeout fst snd].
  apply N.ltb_lt in Hlen.
  cbn [pendingCommands set_pendingCommands set_nextTimer set_timers
       set_nextPromise timeout nextTimer nextPromise timers].
  rewrite Hlen. fold (dataTooLarge (len (CommandObj.mk (uuid O) command data))).
  fold failure.
  match goal with
  | |- context [abandon ?c ?cmd ?p ?h ?r ?X] =>
      destruct (abandon_spec c cmd p h r X) as ([extra Hs] & Hi & Hw & Hpc & Ha);
      set (b3 := abandon c cmd p h r X) in *
  end.
  cbn [settled set_pendingCommands set_nextTimer set_timers set_nextPromise
       stdinLog wsLog pendingCommands] in Hs, Hi, Hw, Hpc.
  exists b3. repeat split.
  - unfold await. rewrite Hs.
    rewrite find_after_unsettled by exact Hunsettled. reflexivity.
  - exact Hi.
  - exact Hw.
  - rewrite Hpc. apply JsMap_delete_set_fresh, Hfresh.
  - exact Ha.
  - rewrite Hs. apply in_or_app. right. left. reflexivity.
Qed.

Lemma oversized_command_fails_locally_witness :
  isInitialized readyBridge = true
  /\ processStdin readyBridge <> None
  /\ (10 * 1024 * 1024
      < exampleLength (CommandObj.mk (exampleUuid O) "execute_code"
                         (ExecuteCodeData "0123456789A")))%N
  /\ exists b',
       run exampleUuid silentWorld
         (sendCommand exampleLength "execute_code"
            (ExecuteCodeData "0123456789A") readyBridge)
       = Threw b'
           (dataTooLarge
              (exampleLength (CommandObj.mk (exampleUuid O) "execute_code"
                                (ExecuteCodeData "0123456789A"))))
       /\ stdinLog b' = stdinLog readyBridge
       /\ wsLog b' = wsLog readyBridge
       /\ pendingCommands b' = pendingCommands readyBridge.
Proof.
  assert (Hpipe : processStdin readyBridge <> None) by (vm_compute; discriminate).
  assert (Hlen : (10 * 1024 * 1024
                  < exampleLength (CommandObj.mk (exampleUuid O) "execute_code"
                                     (ExecuteCodeData "0123456789A")))%N)
    by (vm_compute; reflexivity).
  destruct (oversized_command_fails_locally exampleLength exampleUuid
              silentWorld "execute_code" (ExecuteCodeData "0123456789A")
              readyBridge eq_refl Hpipe Hlen eq_refl eq_refl)
    as (b' & Hrun & Hin & Hws & Hpc & _).
  split; [reflexivity |]. split; [exact Hpipe |]. split; [exact Hlen |].
  exists b'. repeat split; assumption.
Defined.

(** ** Operations on a bridge that is not initialized (C10) *)

(** C10.  On a bridge that is not initialized each of [createSwarm],
    [stopSwarm], [optimizeSwarm], [getSwarmStatus] and [executeCode] throws
    [NOT_INITIALIZED] at once: the method reaches neither a uuid nor an
    [await], and the bridge it leaves behind is the bridge it found, so the
    registry and the pending tables are unchanged and nothing was written. *)
Theorem not_initialized_fails_fast
  (len : CommandObj.t -> N) (iso : Z -> string) (b : Bridge) :
  isInitialized b = false ->
  (forall config, createSwarm len config b = Throw b notInitialized)
  /\ (forall swarmId, stopSwarm len swarmId b = Throw b notInitialized)
  /\ (forall input, optimizeSwarm len iso input b = Throw b notInitialized)
  /\ (forall swarmId, getSwarmStatus len swarmId b = Throw b notInitialized)
  /\ (forall code, executeCode len code b = Throw b notInitialized).
Proof.
  intros Hinit.
  unfold createSwarm, stopSwarm, optimizeSwarm, getSwarmStatus, executeCode.
  rewrite Hinit. cbn [negb]. repeat split; intros; reflexivity.
Qed.

Lemma not_initialized_fails_fast_witness :
  isInitialized (constructor None None None) = false
  /\ run exampleUuid silentWorld
       (executeCode exampleLength "1 + 1" (constructor None None None))
     = Threw (constructor None None None) notInitialized.
Proof.
  split; [reflexivity |].
  destruct (not_initialized_fails_fast exampleLength exampleISO
              (constructor None None None) eq_refl)
    as (_ & _ & _ & _ & Hexec).
  rewrite Hexec. reflexivity.
Defined.

(** ** Stages *)

Lemma extends_refl {A} (l : list A) : extends l l.
Proof. exists []. rewrite app_nil_r. reflexivity. Qed.

Lemma extends_trans {A} (l1 l2 l3 : list A) :
  extends l1 l2 -> extends l2 l3 -> extends l1 l3.
Proof.
  intros [e1 H1] [e2 H2]. exists (e1 ++ e2).
  rewrite H2, H1, app_assoc. reflexivity.
Qed.

Lemma extends_snoc {A} (l : list A) (x : A) : extends l (l ++ [x]).
Proof. exists [x]. reflexivity. Qed.

Lemma extends_In {A} (l l' : list A) (x : A) :
  extends l l' -> In x l -> In x l'.
Proof. intros [e H] Hin. rewrite H. apply in_or_app. left. exact Hin. Qed.

Lemma Later_refl (b : Bridge) : Later b b.
Proof. constructor; try reflexivity; apply extends_refl. Qed.

Lemma Later_trans (b1 b2 b3 : Bridge) :
  Later b1 b2 -> Later b2 b3 -> Later b1 b3.
Proof.
  intros [A1 B1 C1 D1 E1 F1] [A2 B2 C2 D2 E2 F2].
  constructor; try congruence; eapply extends_trans; eassumption.
Qed.

(** A step that touches none of the six fields. *)
Lemma Later_frame (b b' : Bridge) :
  activeSwarms b' = activeSwarms b ->
  isInitialized b' = isInitialized b ->
  emitted b' = emitted b ->
  console b' = console b ->
  settled b' = settled b ->
  stdinLog b' = stdinLog b ->
  Later b b'.
Proof.
  intros A B C D E F. constructor; try assumption.
  - rewrite C. apply extends_refl.
  - rewrite D. apply extends_refl.
  - rewrite E. apply extends_refl.
  - rewrite F. apply extends_refl.
Qed.

Ltac later_frame := apply Later_frame; frame; reflexivity.

Lemma Later_settle (p : PromiseId) (s : Settlement) (b : Bridge) :
  Later b (settle p s b).
Proof.
  constructor; try (frame; reflexivity); try (frame; apply extends_refl).
  destruct (settle_settled p s b) as [extra H].
  exists ((p, s) :: extra). exact H.
Qed.

Lemma Later_log (l : ConsoleLine) (b : Bridge) : Later b (log l b).
Proof.
  constructor; try (frame; reflexivity); try (frame; apply extends_refl).
  unfold log. cbn [console set_console]. apply extends_snoc.
Qed.

Lemma Later_clearTimeout (h : TimerId) (b : Bridge) : Later b (clearTimeout h b).
Proof. later_frame. Qed.

Lemma Later_setTimeout (cb : TimerCallback) (ms : Q) (b : Bridge) :
  Later b (snd (setTimeout cb ms b)).
Proof. later_frame. Qed.

Lemma Later_fold_left {A} (f : Bridge -> A -> Bridge) (l : list A) :
  (forall acc x, Later acc (f acc x)) ->
  forall b, Later b (fold_left f l b).
Proof.
  intros Hf. induction l as [| x r IH]; intros b; simpl.
  - apply Later_refl.
  - eapply Later_trans; [apply Hf | apply IH].
Qed.

Lemma Later_emit (ev : BridgeEvent) (b : Bridge) : Later b (emit ev b).
Proof.
  assert (H1 : Later b (set_emitted (emitted b ++ [ev]) b)).
  { constructor; try reflexivity; try apply extends_refl.
    cbn [emitted set_emitted]. apply extends_snoc. }
  assert (Hw : forall (f : nat * nat -> Settlement) acc w,
             Later acc (settle (fst w) (f w) (clearTimeout (snd w) acc))).
  { intros f acc w. eapply Later_trans;
      [apply Later_clearTimeout | apply Later_settle]. }
  unfold emit. destruct ev; try exact H1.
  - eapply Later_trans; [exact H1 |].
    eapply Later_trans; [| apply (Later_fold_left _ _ (Hw (fun _ => Resolved VUndefined)))].
    later_frame.
  - eapply Later_trans; [exact H1 |].
    eapply Later_trans; [| apply (Later_fold_left _ _ (Hw (fun _ => Rejected e)))].
    later_frame.
Qed.

Lemma Later_handleReconnect (b : Bridge) : Later b (handleReconnect b).
Proof.
  unfold handleReconnect.
  destruct (Nat.ltb (reconnectAttempts b) (maxReconnectAttempts b)).
  - eapply Later_trans; [| apply Later_setTimeout].
    eapply Later_trans; [| apply Later_emit].
    eapply Later_trans; [| apply Later_log].
    later_frame.
  - eapply Later_trans; [apply Later_log | apply Later_emit].
Qed.

Lemma Later_rejectTracked (command : string) (p : PromiseId) (reason : JsError)
  (b : Bridge) :
  Later b (rejectTracked command p reason b).
Proof.
  unfold rejectTracked.
  eapply Later_trans; [apply Later_emit | apply Later_settle].
Qed.

Lemma Later_abandon (commandId command : string) (p : PromiseId) (h : TimerId)
  (reason : JsError) (b : Bridge) :
  Later b (abandon commandId command p h reason b).
Proof.
  unfold abandon.
  eapply Later_trans; [| apply Later_rejectTracked].
  eapply Later_trans; [| apply Later_clearTimeout].
  later_frame.
Qed.

Lemma Later_onCommandTimeout (commandId command : string) (p : PromiseId)
  (b : Bridge) :
  Later b (onCommandTimeout commandId command p b).
Proof.
  unfold onCommandTimeout.
  destruct (JsMap.has commandId (pendingCommands b)); [| apply Later_refl].
  eapply Later_trans; [| apply Later_rejectTracked]. later_frame.
Qed.

(** ** Running composed methods *)

Lemma exec_bind {A B} (uuid : nat -> string) (world : World)
  (a : Async A) (f : Bridge -> A -> Async B) :
  forall n,
    exec uuid n world (bind a f)
    = match exec uuid n world a with
      | (Returned b r, n') => exec uuid n' world (f b r)
      | (Threw b e, n') => (Threw b e, n')
      | (Suspended b p, n') => (Suspended b p, n')
      end.
Proof.
  induction a as [b r | b e | k IH | b p k IH]; intros n; cbn [bind exec].
  - reflexivity.
  - reflexivity.
  - apply IH.
  - destruct (world b p) as [[b' s] |]; [apply IH | reflexivity].
Qed.

Lemma exec_tryCatch {A} (uuid : nat -> string) (world : World)
  (a : Async A) (h : Bridge -> JsError -> Async A) :
  forall n,
    exec uuid n world (tryCatch a h)
    = match exec uuid n world a with
      | (Returned b r, n') => (Returned b r, n')
      | (Threw b e, n') => exec uuid n' world (h b e)
      | (Suspended b p, n') => (Suspended b p, n')
      end.
Proof.
  induction a as [b r | b e | k IH | b p k IH]; intros n; cbn [tryCatch exec].
  - reflexivity.
  - reflexivity.
  - apply IH.
  - destruct (world b p) as [[b' s] |]; [apply IH | reflexivity].
Qed.

(** ** What one command does, whatever the world *)

Lemma executor_spec (len : CommandObj.t -> N) (commandId command : string)
  (data : CommandData) (b : Bridge) :
  Later b (snd (sendCommandExecutor len commandId command data b))
  /\ length (stdinLog (snd (sendCommandExecutor len commandId command data b)))
     <= S (length (stdinLog b)).
Proof.
  unfold sendCommandExecutor.
  cbn [newPromise setTimeout fst snd].
  set (b3 := set_pendingCommands _ _).
  assert (H3 : Later b b3) by (subst b3; later_frame).
  assert (L3 : stdinLog b3 = stdinLog b) by reflexivity.
  assert (Hab : forall reason,
             Later b (abandon commandId command (nextPromise b) (nextTimer b)
                        reason b3)
             /\ length (stdinLog (abandon commandId command (nextPromise b)
                                    (nextTimer b) reason b3))
                <= S (length (stdinLog b))).
  { intros reason. split.
    - eapply Later_trans; [exact H3 | apply Later_abandon].
    - destruct (abandon_spec commandId command (nextPromise b) (nextTimer b)
                  reason b3) as (_ & Hi & _).
      rewrite Hi, L3. lia. }
  destruct (10 * 1024 * 1024 <? len _)%N; cbn [snd]; [apply Hab |].
  destruct (processStdin b3) as [pipe |]; cbn [snd]; [| apply Hab].
  destruct (writable pipe); cbn [negb snd].
  - destruct (writeThrows pipe) as [msg |]; cbn [snd]; [apply Hab |].
    assert (H4 : Later b (set_stdinLog
                            (stdinLog b3 ++
                             [CommandLine (CommandObj.mk commandId command data)])
                            b3)).
    { eapply Later_trans; [exact H3 |].
      constructor; try reflexivity; try apply extends_refl.
      cbn [stdinLog set_stdinLog]. apply extends_snoc. }
    destruct (writeReturns pipe); cbn [snd].
    + split; [exact H4 |].
      cbn [stdinLog set_stdinLog]. rewrite length_app, L3. simpl. lia.
    + split.
      * eapply Later_trans; [exact H4 | apply Later_log].
      * frame. rewrite length_app, L3. simpl. lia.
  - destruct (Hab (JuliaBridgeError "Julia process stdin not writable"
                                    "PROCESS_ERROR")) as [Hl Hn].
    match goal with
    | |- context [if ?c then _ else _] => destruct c
    end; cbn [snd].
    + split.
      * eapply Later_trans; [exact Hl | apply Later_handleReconnect].
      * frame. exact Hn.
    + split; assumption.
Qed.

Section UnderWorld.

Variable len : CommandObj.t -> N.
Variable uuid : nat -> string.
Variable world : World.
Hypothesis world_quiet : Quiet world.

(** Whatever becomes of [await this.sendCommand(...)], the bridge it leaves
    is a later stage of the one it found, with at most one more line on the
    child's standard input; and it does not stay suspended in a responsive
    world. *)
Lemma exec_sendCommand (command : string) (data : CommandData) (b : Bridge)
  (n : nat) :
  let o := fst (exec uuid n world (sendCommand len command data b)) in
  Later b (final o)
  /\ length (stdinLog (final o)) <= S (length (stdinLog b))
  /\ (Responsive world -> isSuspended o = false).
Proof.
  unfold sendCommand.
  destruct (negb (isInitialized b)
            || match processStdin b with Some _ => false | None => true end).
  - cbn [exec fst final isSuspended].
    split; [apply Later_refl | split; [lia | reflexivity]].
  - cbn [exec].
    destruct (executor_spec len (uuid n) command data b) as [Hl Hn].
    destruct (sendCommandExecutor len (uuid n) command data b) as [p b1].
    cbn [snd] in Hl, Hn. unfold await.
    destruct (find (fun ps => Nat.eqb (fst ps) p) (settled b1))
      as [[q [v | e]] |].
    + cbn [exec fst final isSuspended].
      split; [exact Hl | split; [exact Hn | reflexivity]].
    + cbn [exec fst final isSuspended].
      split; [exact Hl | split; [exact Hn | reflexivity]].
    + cbn [exec]. destruct (world b1 p) as [[b' s] |] eqn:Hw.
      * destruct (world_quiet _ _ _ _ Hw) as [Hl' Hs'].
        assert (Later b b') by (eapply Later_trans; eassumption).
        destruct s; cbn [exec fst final isSuspended]; rewrite Hs';
          (split; [assumption | split; [exact Hn | reflexivity]]).
      * cbn [fst final isSuspended].
        split; [exact Hl | split; [exact Hn |]].
        intros Hr. exfalso. exact (Hr _ _ Hw).
Qed.

End UnderWorld.

(** ** The registry under [delete] *)

Lemma JsMap_has_keys {V} (k : string) (m : JsMap.t V) :
  In k (JsMap.keys m) -> JsMap.has k m = true.
Proof.
  unfold JsMap.has, JsMap.keys.
  induction m as [| [k' v] r IH]; cbn [map In JsMap.get fst].
  - intros [].
  - intros [H | H].
    + subst k'. rewrite String.eqb_refl. reflexivity.
    + destruct (String.eqb k' k); [reflexivity | exact (IH H)].
Qed.

Lemma JsMap_has_delete_other {V} (k k' : string) (m : JsMap.t V) :
  k <> k' -> JsMap.has k' (JsMap.delete k m) = JsMap.has k' m.
Proof.
  intros H. unfold JsMap.has. rewrite JsMap_get_delete_other by exact H.
  reflexivity.
Qed.

Lemma JsMap_has_deleteAll_other {V} (ids : list string) (k : string) :
  ~ In k ids ->
  forall m : JsMap.t V, JsMap.has k (deleteAll ids m) = JsMap.has k m.
Proof.
  unfold deleteAll.
  induction ids as [| id r IH]; intros Hnot m; cbn [fold_left]; [reflexivity |].
  rewrite IH by (intros H; apply Hnot; right; exact H).
  apply JsMap_has_delete_other. intros ->. apply Hnot. left. reflexivity.
Qed.

Lemma deleteAll_covering {V} (ids : list string) :
  forall m : JsMap.t V,
    (forall kv, In kv m -> In (fst kv) ids) -> deleteAll ids m = [].
Proof.
  unfold deleteAll.
  induction ids as [| id r IH]; intros m Hm; cbn [fold_left].
  - destruct m as [| kv m']; [reflexivity |].
    destruct (Hm kv (or_introl eq_refl)).
  - apply IH. intros kv Hin. unfold JsMap.delete in Hin.
    apply filter_In in Hin. destruct Hin as [Hin Hne].
    destruct (Hm kv Hin) as [Heq | Hr]; [| exact Hr].
    subst id. rewrite String.eqb_refl in Hne. discriminate Hne.
Qed.

Lemma deleteAll_keys {V} (m : JsMap.t V) : deleteAll (JsMap.keys m) m = [].
Proof.
  apply deleteAll_covering. intros kv Hin. unfold JsMap.keys.
  apply in_map. exact Hin.
Qed.

(** ** Stopping all sessions (C6) *)

Section StopAll.

Variable len : CommandObj.t -> N.
Variable uuid : nat -> string.
Variable world : World.
Hypothesis world_quiet : Quiet world.

(** The loop of [stopSwarm()]: it returns once every id was stopped, and
    otherwise ends at the first id whose command fails. *)
Lemma exec_stopAll (ids : list string) :
  forall (b : Bridge) (n : nat),
    match fst (exec uuid n world (stopAll len ids b)) with
    | Returned b' _ => activeSwarms b' = deleteAll ids (activeSwarms b)
    | Threw b' _ | Suspended b' _ =>
        exists done failed rest,
          ids = done ++ failed :: rest
          /\ activeSwarms b' = deleteAll done (activeSwarms b)
          /\ length (stdinLog b') <= length (stdinLog b) + length done + 1
    end.
Proof.
  induction ids as [| id r IH]; intros b n.
  - reflexivity.
  - cbn [stopAll]. rewrite exec_bind.
    destruct (exec_sendCommand len uuid world world_quiet "stop_swarm"
                (StopSwarmData id) b n) as (Hl & Hn & _).
    destruct (exec uuid n world (sendCommand len "stop_swarm" (StopSwarmData id) b))
      as [[b1 v | b1 e | b1 p] n1]; cbn [fst final] in Hl, Hn.
    + set (b2 := emit (EvSwarmStopped id)
                   (set_activeSwarms (JsMap.delete id (activeSwarms b1)) b1)).
      assert (Hsw : activeSwarms b2 = JsMap.delete id (activeSwarms b)).
      { subst b2. frame. rewrite (later_swarms _ _ Hl). reflexivity. }
      assert (Hin : stdinLog b2 = stdinLog b1) by (subst b2; frame; reflexivity).
      specialize (IH b2 n1).
      destruct (fst (exec uuid n1 world (stopAll len r b2))) as [b' u | b' e | b' p].
      * rewrite IH, Hsw. reflexivity.
      * destruct IH as (done & failed & rest & Hids & Hreg & Hlen).
        exists (id :: done), failed, rest. split; [rewrite Hids; reflexivity |].
        split; [rewrite Hreg, Hsw; reflexivity |].
        rewrite Hin in Hlen. cbn [length]. lia.
      * destruct IH as (done & failed & rest & Hids & Hreg & Hlen).
        exists (id :: done), failed, rest. split; [rewrite Hids; reflexivity |].
        split; [rewrite Hreg, Hsw; reflexivity |].
        rewrite Hin in Hlen. cbn [length]. lia.
    + cbn [fst]. exists [], id, r. split; [reflexivity |].
      split; [exact (later_swarms _ _ Hl) |]. cbn [length]. lia.
    + cbn [fst]. exists [], id, r. split; [reflexivity |].
      split; [exact (later_swarms _ _ Hl) |]. cbn [length]. lia.
Qed.

Lemma abortedAt_intro (b b' : Bridge) (done rest : list string)
  (failed : string) :
  JsMap.keys (activeSwarms b) = done ++ failed :: rest ->
  activeSwarms b' = deleteAll done (activeSwarms b) ->
  length (stdinLog b') <= length (stdinLog b) + length done + 1 ->
  abortedAt b b'.
Proof.
  intros Hk Hreg Hlen. exists done, failed, rest.
  split; [exact Hk |]. split; [exact Hreg |]. split; [| exact Hlen].
  intros id Hin Hnot. rewrite Hreg.
  rewrite JsMap_has_deleteAll_other by exact Hnot.
  apply JsMap_has_keys. rewrite Hk. apply in_or_app. right. exact Hin.
Qed.

End StopAll.


(** ** Worlds driven by the deadline timer *)

Lemma Quiet_worldOf (step : Bridge -> PromiseId -> Bridge) :
  (forall b p, Later b (step b p) /\ stdinLog (step b p) = stdinLog b) ->
  Quiet (worldOf step).
Proof.
  intros Hstep b p b' s. unfold worldOf.
  destruct (find (fun ps => Nat.eqb (fst ps) p) (settled (step b p)))
    as [[q s'] |]; [| discriminate].
  intros H. injection H as <- _. apply Hstep.
Qed.

Lemma Quiet_silentWorld : Quiet silentWorld.
Proof.
  apply Quiet_worldOf. intros b p.
  destruct (deadlineOf p b) as [t |]; [| split; [apply Later_refl | reflexivity]].
  destruct (callback t); try (split; [apply Later_refl | reflexivity]).
  split.
  - eapply Later_trans; [apply Later_clearTimeout | apply Later_onCommandTimeout].
  - unfold onCommandTimeout.
    destruct (JsMap.has commandId (pendingCommands (clearTimeout (handle t) b)));
      frame; reflexivity.
Qed.

Lemma Quiet_deadlineWorld : Quiet deadlineWorld.
Proof.
  intros b p b' s. unfold deadlineWorld.
  destruct (silentWorld b p) as [r |] eqn:E.
  - intros H. injection H as ->. exact (Quiet_silentWorld b p b' s E).
  - intros H. injection H as <- _. split; [apply Later_refl | reflexivity].
Qed.

Lemma Responsive_deadlineWorld : Responsive deadlineWorld.
Proof.
  intros b p. unfold deadlineWorld.
  destruct (silentWorld b p); discriminate.
Qed.



(** ** Optimizing (C4) *)

(** An id the registry does not hold: the method throws before it draws a
    uuid, and the bridge is unchanged. *)
Lemma optimizeSwarm_unknown_session
  (len : CommandObj.t -> N) (iso : Z -> string)
  (input : SwarmOptimizationInput) (b : Bridge) :
  isInitialized b = true ->
  JsMap.has (swarmId input) (activeSwarms b) = false ->
  optimizeSwarm len iso input b
  = Throw b (JuliaBridgeError
               ("Optimization error: Swarm not found: " ++ swarmId input)
               "OPTIMIZATION_ERROR").
Proof.
  intros Hinit Hhas. unfold optimizeSwarm. rewrite Hinit, Hhas. reflexivity.
Qed.

(** A registered id: the command is sent, and what the method returns is
    what the promise of the command resolved with. *)
Lemma optimizeSwarm_active_session
  (len : CommandObj.t -> N) (iso : Z -> string) (uuid : nat -> string)
  (world : World) (input : SwarmOptimizationInput) (b : Bridge) :
  isInitialized b = true ->
  JsMap.has (swarmId input) (activeSwarms b) = true ->
  run uuid world (optimizeSwarm len iso input b)
  = match run uuid world
            (sendCommand len "optimize_swarm"
               (OptimizeSwarmData (swarmId input)
                  (map (isoTimestamp iso) (marketData input))
                  (tradingPairs input) (riskParameters input)) b) with
    | Returned b1 result =>
        Returned (emit (EvSwarmOptimized (swarmId input) result) b1) result
    | Threw b1 error =>
        Threw b1 (JuliaBridgeError ("Optimization error: " ++ message error)
                                   "OPTIMIZATION_ERROR")
    | Suspended b1 p => Suspended b1 p
    end.
Proof.
  intros Hinit Hhas. unfold run, optimizeSwarm. rewrite Hinit, Hhas.
  cbn [negb]. rewrite exec_tryCatch, exec_bind.
  destruct (exec uuid 0 world _) as [[b1 v | b1 e | b1 p] n1]; reflexivity.
Qed.

(** C4 at a concrete input.  [optimizeSwarm] for an id that was never
    registered fails without sending anything, but the error that reaches
    the caller carries the code [OPTIMIZATION_ERROR]: the [SWARM_NOT_FOUND]
    error thrown inside the [try] is caught and wrapped by the [catch] of
    the same method. *)
Theorem optimize_unknown_session_is_wrapped :
  run exampleUuid silentWorld
    (optimizeSwarm exampleLength exampleISO (exampleInput "nope") twoSwarms)
  = Threw twoSwarms
      (JuliaBridgeError "Optimization error: Swarm not found: nope"
                        "OPTIMIZATION_ERROR")
  /\ code (JuliaBridgeError "Optimization error: Swarm not found: nope"
                            "OPTIMIZATION_ERROR")
     <> Some "SWARM_NOT_FOUND".
Proof.
  split; [vm_compute; reflexivity | intros H; discriminate H].
Qed.

(** ** Frames of the connection layer *)

Lemma scheduleReconnect_frame {T} (proj : Bridge -> T) :
  (forall v b, proj (set_isReconnecting v b) = proj b) ->
  (forall v b, proj (set_console v b) = proj b) ->
  (forall v b, proj (set_timers v b) = proj b) ->
  (forall v b, proj (set_nextTimer v b) = proj b) ->
  (forall v b, proj (set_reconnectTimer v b) = proj b) ->
  forall b, proj (scheduleReconnect b) = proj b.
Proof.
  intros H1 H2 H3 H4 H5 b. unfold scheduleReconnect.
  destruct (isReconnecting b
            || match reconnectTimer b with Some _ => true | None => false end);
    [reflexivity |].
  cbn [setTimeout]. rewrite H5, H4, H3.
  rewrite log_frame by exact H2. apply H1.
Qed.

Lemma handleDisconnect_frame {T} (proj : Bridge -> T) :
  (forall v b, proj (set_isConnected v b) = proj b) ->
  (forall v b, proj (set_emitted v b) = proj b) ->
  (forall v b, proj (set_isReconnecting v b) = proj b) ->
  (forall v b, proj (set_console v b) = proj b) ->
  (forall v b, proj (set_timers v b) = proj b) ->
  (forall v b, proj (set_nextTimer v b) = proj b) ->
  (forall v b, proj (set_reconnectTimer v b) = proj b) ->
  forall b, proj (handleDisconnect b) = proj b.
Proof.
  intros H0 He H1 H2 H3 H4 H5 b. unfold handleDisconnect.
  destruct (negb (isConnected b)); [reflexivity |].
  rewrite scheduleReconnect_frame by assumption.
  unfold emit. cbn [set_emitted]. rewrite He. apply H0.
Qed.

Lemma wsSend_frame {T} (proj : Bridge -> T) :
  (forall v b, proj (set_wsLog v b) = proj b) ->
  forall frame b, proj (snd (wsSend frame b)) = proj b.
Proof.
  intros H frame b. unfold wsSend.
  destruct (ws b) as [[| | |] |]; cbn [snd]; try reflexivity. apply H.
Qed.

Lemma sendHeartbeat_frame {T} (proj : Bridge -> T) :
  (forall v b, proj (set_wsLog v b) = proj b) ->
  (forall v b, proj (set_isConnected v b) = proj b) ->
  (forall v b, proj (set_emitted v b) = proj b) ->
  (forall v b, proj (set_isReconnecting v b) = proj b) ->
  (forall v b, proj (set_console v b) = proj b) ->
  (forall v b, proj (set_timers v b) = proj b) ->
  (forall v b, proj (set_nextTimer v b) = proj b) ->
  (forall v b, proj (set_reconnectTimer v b) = proj b) ->
  forall now b, proj (sendHeartbeat now b) = proj b.
Proof.
  intros Hw H0 He H1 H2 H3 H4 H5 now b. unfold sendHeartbeat.
  destruct (negb (isConnected b)
            || match ws b with Some _ => false | None => true end);
    [reflexivity |].
  pose proof (wsSend_frame proj Hw (HeartbeatFrame now) b) as Hs.
  destruct (wsSend (HeartbeatFrame now) b) as [[err |] b1]; cbn [snd] in Hs.
  - rewrite handleDisconnect_frame by assumption.
    rewrite log_frame by assumption. exact Hs.
  - exact Hs.
Qed.

Lemma startHeartbeat_frame {T} (proj : Bridge -> T) :
  (forall v b, proj (set_wsLog v b) = proj b) ->
  (forall v b, proj (set_isConnected v b) = proj b) ->
  (forall v b, proj (set_emitted v b) = proj b) ->
  (forall v b, proj (set_isReconnecting v b) = proj b) ->
  (forall v b, proj (set_console v b) = proj b) ->
  (forall v b, proj (set_timers v b) = proj b) ->
  (forall v b, proj (set_nextTimer v b) = proj b) ->
  (forall v b, proj (set_reconnectTimer v b) = proj b) ->
  (forall v b, proj (set_heartbeatTimer v b) = proj b) ->
  forall now b, proj (startHeartbeat now b) = proj b.
Proof.
  intros Hw H0 He H1 H2 H3 H4 H5 H6 now b. unfold startHeartbeat.
  cbn [setInterval]. rewrite sendHeartbeat_frame by assumption.
  rewrite H6, H4, H3.
  destruct (heartbeatTimer b); [| reflexivity].
  unfold clearInterval. apply clearTimeout_frame, H3.
Qed.

Lemma transmitMessage_frame {T} (proj : Bridge -> T) :
  (forall v b, proj (set_nextPromise v b) = proj b) ->
  (forall v b, proj (set_timers v b) = proj b) ->
  (forall v b, proj (set_nextTimer v b) = proj b) ->
  (forall v b, proj (set_pendingRequests v b) = proj b) ->
  (forall v b, proj (set_wsLog v b) = proj b) ->
  (forall v b, proj (set_settled v b) = proj b) ->
  forall requestId message b,
    proj (snd (transmitMessage requestId message b)) = proj b.
Proof.
  intros H1 H2 H3 H4 H5 H6 requestId message b. unfold transmitMessage.
  cbn [newPromise setTimeout].
  set (b3 := set_pendingRequests _ _).
  assert (E3 : proj b3 = proj b).
  { subst b3. rewrite H4, H3, H2. apply H1. }
  destruct (truthyArtificialDelay (config b3)) as [d |]; cbn [snd].
  - cbn [setTimeout snd]. rewrite H3, H2. exact E3.
  - destruct (ws b3) as [r |] eqn:Ews; cbn [snd]; [| exact E3].
    pose proof (wsSend_frame proj H5 (RequestFrame (requestMessageOf requestId message)) b3)
      as Hs.
    destruct (wsSend (RequestFrame (requestMessageOf requestId message)) b3)
      as [[err |] b4]; cbn [snd] in Hs |- *.
    + rewrite settle_frame by exact H6. congruence.
    + congruence.
Qed.

Lemma enqueueMessage_frame {T} (proj : Bridge -> T) :
  (forall v b, proj (set_nextPromise v b) = proj b) ->
  (forall v b, proj (set_messageQueue v b) = proj b) ->
  (forall v b, proj (set_settled v b) = proj b) ->
  forall message now b, proj (snd (enqueueMessage message now b)) = proj b.
Proof.
  intros H1 H2 H3 message now b. unfold enqueueMessage. cbn [newPromise].
  match goal with |- context [if ?c then _ else _] => destruct c end; cbn [snd].
  - rewrite settle_frame by exact H3. apply H1.
  - rewrite H2. apply H1.
Qed.

Lemma chain_frame {T} (proj : Bridge -> T) :
  (forall v b, proj (set_settled v b) = proj b) ->
  (forall v b, proj (set_thenLinks v b) = proj b) ->
  forall p item b, proj (chain p item b) = proj b.
Proof.
  intros H1 H2 p item b. unfold chain.
  destruct (find (fun ps => Nat.eqb (fst ps) p) (settled b)) as [[q [v | e]] |].
  - apply call_frame, H1.
  - apply call_frame, H1.
  - apply H2.
Qed.

(** The loop of [processQueuedMessages] never waits: it returns. *)
Lemma exec_resendAll (uuid : nat -> string) (world : World) (now : Z)
  (queue : list QueueItem.t) :
  forall b n,
    exists b', exec uuid n world (resendAll queue now b)
               = (Returned b' tt, (n + (if isConnected b then length queue else 0))%nat)
               /\ isConnected b' = isConnected b.
Proof.
  induction queue as [| item rest IH]; intros b n; cbn [resendAll].
  - exists b. cbn [exec length]. destruct (isConnected b);
      rewrite Nat.add_0_r; split; reflexivity.
  - rewrite exec_bind. unfold sendMessage.
    destruct (isConnected b) eqn:Hc; cbn [negb].
    + cbn [exec].
      pose proof (transmitMessage_frame isConnected
                    ltac:(reflexivity) ltac:(reflexivity) ltac:(reflexivity)
                    ltac:(reflexivity) ltac:(reflexivity) ltac:(reflexivity)
                    (uuid n) (QueueItem.message item) b) as Hf.
      destruct (transmitMessage (uuid n) (QueueItem.message item) b) as [p b1].
      cbn [snd] in Hf. cbn [exec].
      destruct (IH (chain p item b1) (S n)) as (b' & He & Hc').
      rewrite (chain_frame isConnected) in He, Hc' by reflexivity.
      rewrite Hf, Hc in He, Hc'.
      exists b'. rewrite He. cbn [length]. rewrite Nat.add_succ_r.
      split; [reflexivity | exact Hc'].
    + pose proof (enqueueMessage_frame isConnected
                    ltac:(reflexivity) ltac:(reflexivity) ltac:(reflexivity)
                    (QueueItem.message item) now b) as Hf.
      destruct (enqueueMessage (QueueItem.message item) now b) as [p b1].
      cbn [snd] in Hf. cbn [exec].
      destruct (IH (chain p item b1) n) as (b' & He & Hc').
      rewrite (chain_frame isConnected) in He, Hc' by reflexivity.
      rewrite Hf, Hc in He, Hc'.
      exists b'. split; assumption.
Qed.

Lemma resendAll_frame {T} (proj : Bridge -> T) (uuid : nat -> string)
  (world : World) (now : Z) :
  (forall v b, proj (set_nextPromise v b) = proj b) ->
  (forall v b, proj (set_timers v b) = proj b) ->
  (forall v b, proj (set_nextTimer v b) = proj b) ->
  (forall v b, proj (set_pendingRequests v b) = proj b) ->
  (forall v b, proj (set_wsLog v b) = proj b) ->
  (forall v b, proj (set_settled v b) = proj b) ->
  (forall v b, proj (set_messageQueue v b) = proj b) ->
  (forall v b, proj (set_thenLinks v b) = proj b) ->
  forall queue b n,
    proj (final (fst (exec uuid n world (resendAll queue now b)))) = proj b.
Proof.
  intros H1 H2 H3 H4 H5 H6 H7 H8.
  induction queue as [| item rest IH]; intros b n; cbn [resendAll].
  - reflexivity.
  - rewrite exec_bind. unfold sendMessage.
    destruct (negb (isConnected b)).
    + pose proof (enqueueMessage_frame proj H1 H7 H6
                    (QueueItem.message item) now b) as Hf.
      destruct (enqueueMessage (QueueItem.message item) now b) as [p b1].
      cbn [snd] in Hf. cbn [exec].
      rewrite IH. rewrite chain_frame by assumption. exact Hf.
    + cbn [exec].
      pose proof (transmitMessage_frame proj H1 H2 H3 H4 H5 H6
                    (uuid n) (QueueItem.message item) b) as Hf.
      destruct (transmitMessage (uuid n) (QueueItem.message item) b) as [p b1].
      cbn [snd] in Hf. cbn [exec].
      rewrite IH. rewrite chain_frame by assumption. exact Hf.
Qed.

Lemma processQueuedMessages_frame {T} (proj : Bridge -> T)
  (uuid : nat -> string) (world : World) (now : Z) :
  (forall v b, proj (set_nextPromise v b) = proj b) ->
  (forall v b, proj (set_timers v b) = proj b) ->
  (forall v b, proj (set_nextTimer v b) = proj b) ->
  (forall v b, proj (set_pendingRequests v b) = proj b) ->
  (forall v b, proj (set_wsLog v b) = proj b) ->
  (forall v b, proj (set_settled v b) = proj b) ->
  (forall v b, proj (set_messageQueue v b) = proj b) ->
  (forall v b, proj (set_thenLinks v b) = proj b) ->
  forall b n,
    proj (final (fst (exec uuid n world (processQueuedMessages now b)))) = proj b.
Proof.
  intros H1 H2 H3 H4 H5 H6 H7 H8 b n. unfold processQueuedMessages.
  rewrite resendAll_frame by assumption. rewrite H7, H7.
  apply fold_left_frame. intros acc item.
  destruct (expired now (optZ (config b) opt_timeout 30000) item);
    [apply settle_frame, H6 | reflexivity].
Qed.

Lemma exec_processQueuedMessages_returns (uuid : nat -> string)
  (world : World) (now : Z) (b : Bridge) (n : nat) :
  exists b' n', exec uuid n world (processQueuedMessages now b)
                = (Returned b' tt, n').
Proof.
  unfold processQueuedMessages.
  match goal with
  | |- context [resendAll ?q now ?x] =>
      destruct (exec_resendAll uuid world now q x n) as (b' & He & _)
  end.
  eexists. eexists. exact He.
Qed.

(** ** Backoff (C5) *)

Lemma retryCount_wsOnOpen (uuid : nat -> string) (world : World) (now : Z)
  (b : Bridge) :
  retryCount (final (run uuid world (wsOnOpen now b))) = 0.
Proof.
  unfold run, wsOnOpen. rewrite exec_bind.
  set (b3 := emit EvConnected _).
  assert (H3 : retryCount b3 = 0).
  { subst b3. rewrite emit_frame by (intros; reflexivity). reflexivity. }
  pose proof (processQueuedMessages_frame retryCount uuid world now
                ltac:(reflexivity) ltac:(reflexivity) ltac:(reflexivity)
                ltac:(reflexivity) ltac:(reflexivity) ltac:(reflexivity)
                ltac:(reflexivity) ltac:(reflexivity) b3 0) as Hf.
  destruct (exec_processQueuedMessages_returns uuid world now b3 0)
    as (b4 & n4 & He).
  rewrite He in Hf |- *. cbn [fst final] in Hf. cbn [exec fst final].
  rewrite startHeartbeat_frame by (intros; reflexivity).
  rewrite Hf. exact H3.
Qed.

(** C5.  The timer [scheduleReconnect] arms for retry attempt [n] (the
    value of [retryCount] at that moment) waits for the configured
    [reconnectInterval] times the configured [backoffMultiplier] to the
    power [n]; the attempt counter goes up by one when that timer fires;
    and the handler of the socket's [open] event leaves [retryCount] at 0.
    The process-level path is built the same way from its own constants:
    the timer [handleReconnect] arms for attempt [n] waits for
    [reconnectDelay] times 2 to the power [n], and an [initialize()] that
    succeeds leaves [reconnectAttempts] at 0.  (Numbers are exact
    rationals.) *)
Theorem reconnect_backoff_and_reset
  (b : Bridge) (o : JuliaBridgeOptions) (baseDelay : Z) (multiplier : Q) :
  options (config b) = Some o ->
  reconnectInterval o = Some baseDelay ->
  baseDelay <> 0%Z ->
  backoffMultiplier o = Some multiplier ->
  Qeq_bool multiplier 0%Q = false ->
  calculateBackoffDelay b
  = (inject_Z baseDelay * Qpower multiplier (Z.of_nat (retryCount b)))%Q
  /\ (isReconnecting b = false ->
      reconnectTimer b = None ->
      timers (scheduleReconnect b)
      = timers b
        ++ [mkTimer (nextTimer b) ReconnectTick
              (inject_Z baseDelay * Qpower multiplier (Z.of_nat (retryCount b)))%Q
              false]
      /\ retryCount (onReconnectTick (scheduleReconnect b)) = S (retryCount b))
  /\ (forall uuid world now,
        retryCount (final (run uuid world (wsOnOpen now b))) = 0)
  /\ (Nat.ltb (reconnectAttempts b) (maxReconnectAttempts b) = true ->
      timers (handleReconnect b)
      = timers b
        ++ [mkTimer (nextTimer b) Reinitialize
              (inject_Z (reconnectDelay b)
               * Qpower 2 (Z.of_nat (reconnectAttempts b)))%Q
              false])
  /\ (forall uuid world,
        Quiet world ->
        isInitialized b = false ->
        match run uuid world (initialize b) with
        | Returned b' _ => isInitialized b' = true -> reconnectAttempts b' = 0
        | _ => True
        end).
Proof.
  intros Ho Hbase Hnz Hmult Hmnz.
  assert (Hdelay : calculateBackoffDelay b
                   = (inject_Z baseDelay
                      * Qpower multiplier (Z.of_nat (retryCount b)))%Q).
  { unfold calculateBackoffDelay, optZ, optQ, orZ, orQ, truthyZ.
    rewrite Ho, Hbase, Hmult, Hmnz.
    destruct (baseDelay =? 0)%Z eqn:E; [apply Z.eqb_eq in E; contradiction |].
    reflexivity. }
  split; [exact Hdelay |].
  split.
  { intros Hr Ht. unfold scheduleReconnect. rewrite Hr, Ht. cbn [orb].
    assert (Hd : calculateBackoffDelay (set_isReconnecting true b)
                 = calculateBackoffDelay b) by reflexivity.
    rewrite Hd, Hdelay. cbn [setTimeout]. split.
    - frame. unfold log. reflexivity.
    - unfold onReconnectTick.
      match goal with
      | |- context [if ?c then _ else _] => destruct c
      end.
      + rewrite emit_frame by (intros; reflexivity). reflexivity.
      + unfold connectWebSocket.
        match goal with
        | |- context [match ?w with Some _ => _ | None => _ end] =>
            destruct w as [[| | |] |]
        end; reflexivity. }
  split; [intros uuid world now; apply retryCount_wsOnOpen |].
  split.
  { intros Hlt. unfold handleReconnect. rewrite Hlt.
    unfold reinitializeDelay. cbn [setTimeout snd].
    cbn [reconnectAttempts set_reconnectAttempts reconnectDelay].
    replace (Z.of_nat (S (reconnectAttempts b)) - 1)%Z
      with (Z.of_nat (reconnectAttempts b)) by lia.
    unfold emit, log. reflexivity. }
  intros uuid world Hq Hinit. unfold run, initialize. rewrite Hinit.
  rewrite exec_tryCatch, exec_bind. unfold waitForConnection.
  destruct (isConnected (spawn b)).
  - cbn [exec]. intros _. frame. reflexivity.
  - cbn [newPromise setTimeout exec].
    match goal with
    | |- context [world ?x ?p] => destruct (world x p) as [[b' s] |] eqn:Hw
    end; [| exact I].
    destruct (Hq _ _ _ _ Hw) as [Hl _].
    pose proof (later_initialized _ _ Hl) as Hi.
    cbn [isInitialized set_connectionWaiters set_nextTimer set_timers
         set_nextPromise spawn set_juliaProcess] in Hi.
    destruct s as [v | e]; cbn [exec].
    + intros _. frame. reflexivity.
    + match goal with
      | |- context [if ?c then _ else _] => destruct c
      end; cbn [exec fst]; [| exact I].
      frame. rewrite Hi, Hinit. intros H. discriminate H.
Qed.

Lemma Quiet_obligingWorld : Quiet obligingWorld.
Proof.
  intros b p b' s H. injection H as <- _.
  split; [apply Later_refl | reflexivity].
Qed.

Lemma reconnect_backoff_and_reset_witness :
  options (config (retrying 2))
  = Some {| debug := Some false;
            opt_timeout := Some 30000%Z;
            maxRetries := Some 3;
            reconnectInterval := Some 5000%Z;
            artificialDelay := Some 0%Z;
            heartbeatInterval := Some 30000%Z;
            heartbeatTimeout := Some 10000%Z;
            maxQueueSize := Some 1000;
            backoffMultiplier := Some (3 # 2)%Q;
            env := Some [];
            projectPath := Some "";
            depotPath := Some "" |}
  /\ 5000%Z <> 0%Z
  /\ Qeq_bool (3 # 2)%Q 0%Q = false
  /\ calculateBackoffDelay (retrying 2)
     = (inject_Z 5000 * Qpower (3 # 2)%Q (Z.of_nat 2))%Q
  /\ (calculateBackoffDelay (retrying 2) == 11250)%Q
  /\ timers (scheduleReconnect (retrying 2))
     = [mkTimer 0 ReconnectTick
          (inject_Z 5000 * Qpower (3 # 2)%Q (Z.of_nat 2))%Q false]
  /\ retryCount (onReconnectTick (scheduleReconnect (retrying 2))) = 3
  /\ retryCount (final (run exampleUuid obligingWorld
                          (wsOnOpen 1000 (retrying 2)))) = 0
  /\ timers (handleReconnect (retrying 2))
     = [mkTimer 0 Reinitialize (inject_Z 1000 * Qpower 2 (Z.of_nat 0))%Q false]
  /\ match run exampleUuid obligingWorld (initialize (retrying 2)) with
     | Returned b' _ => isInitialized b' = true -> reconnectAttempts b' = 0
     | _ => True
     end
  /\ exists b',
       run exampleUuid obligingWorld (initialize (retrying 2)) = Returned b' tt
       /\ isInitialized b' = true.
Proof.
  assert (Hnz : 5000%Z <> 0%Z) by (intros H; discriminate H).
  pose proof (reconnect_backoff_and_reset (retrying 2) _ 5000%Z (3 # 2)%Q
                eq_refl eq_refl Hnz eq_refl eq_refl) as H.
  destruct H as (Hdelay & Hschedule & Hopen & Hprocess & Hinit).
  destruct (Hschedule eq_refl eq_refl) as [Htimers Hcount].
  split; [reflexivity |]. split; [exact Hnz |]. split; [reflexivity |].
  split; [exact Hdelay |]. split; [vm_compute; reflexivity |].
  split; [exact Htimers |]. split; [exact Hcount |].
  split; [apply Hopen |].
  split; [exact (Hprocess eq_refl) |].
  split; [exact (Hinit exampleUuid obligingWorld Quiet_obligingWorld eq_refl) |].
  eexists. split; vm_compute; reflexivity.
Defined.

(** ** Heartbeat (C7) *)

(** A tick of the interval timer runs [sendHeartbeat] and leaves the timer
    armed. *)
Lemma fireTimer_heartbeat (h : TimerId) (ms : Q) (now : Z) (b : Bridge) :
  find (fun t => Nat.eqb (handle t) h) (timers b)
  = Some (mkTimer h HeartbeatTick ms true) ->
  fireTimer h now b = Ret (sendHeartbeat now b) tt.
Proof. intros H. unfold fireTimer. rewrite H. reflexivity. Qed.

Lemma heartbeatStep_open (b : Bridge) (ev : HeartbeatEvent) :
  isConnected b = true ->
  ws b = Some OPEN ->
  isConnected (heartbeatStep b ev) = true
  /\ ws (heartbeatStep b ev) = Some OPEN
  /\ reconnectTimer (heartbeatStep b ev) = reconnectTimer b
  /\ isReconnecting (heartbeatStep b ev) = isReconnecting b
  /\ timers (heartbeatStep b ev) = timers b
  /\ emitted (heartbeatStep b ev) = emitted b.
Proof.
  intros Hc Hw. destruct ev as [now | now]; cbn [heartbeatStep].
  - unfold sendHeartbeat, wsSend. rewrite Hc, Hw. cbn [negb orb].
    repeat split; assumption.
  - cbn. repeat split; assumption.
Qed.




(** ** Flushing the queue (C8) *)

Lemma In_settled_settle (p : PromiseId) (s : Settlement) (b : Bridge) :
  In (p, s) (settled (settle p s b)).
Proof.
  destruct (settle_settled p s b) as [extra H]. rewrite H.
  apply in_or_app. right. left. reflexivity.
Qed.

Lemma Later_call (p : PromiseId) (s : Settlement) (b : Bridge) :
  Later b (call p s b).
Proof.
  constructor; try reflexivity; try apply extends_refl.
  unfold call. cbn [settled set_settled]. apply extends_snoc.
Qed.

Lemma Later_chain (p : PromiseId) (item : QueueItem.t) (b : Bridge) :
  Later b (chain p item b).
Proof.
  unfold chain.
  destruct (find (fun ps => Nat.eqb (fst ps) p) (settled b)) as [[q [v | e]] |].
  - apply Later_call.
  - apply Later_call.
  - apply Later_frame; reflexivity.
Qed.

(** The filter of [processQueuedMessages] rejects every expired item. *)
Lemma expired_items_rejected (now maxQueueAge : Z) (queue : list QueueItem.t) :
  forall b item,
    In item queue ->
    expired now maxQueueAge item = true ->
    In (QueueItem.reject item, Rejected (Error "Message expired"))
       (settled
          (fold_left
             (fun acc item =>
                if expired now maxQueueAge item
                then settle (QueueItem.reject item)
                       (Rejected (Error "Message expired")) acc
                else acc)
             queue b)).
Proof.
  induction queue as [| x rest IH]; intros b item Hin Hexp; [destruct Hin |].
  cbn [fold_left]. destruct Hin as [-> | Hin].
  - rewrite Hexp.
    match goal with
    | |- In _ (settled (fold_left ?f rest ?x)) =>
        assert (HL : Later x (fold_left f rest x))
    end.
    { apply Later_fold_left. intros acc y.
      destruct (expired now maxQueueAge y); [apply Later_settle | apply Later_refl]. }
    eapply extends_In; [exact (later_settled _ _ HL) |].
    apply In_settled_settle.
  - apply IH; assumption.
Qed.

(** One message sent over an open socket, without artificial delay. *)
Lemma transmitMessage_open (requestId : string) (message : JsMap.t Json)
  (b : Bridge) :
  ws b = Some OPEN ->
  truthyArtificialDelay (config b) = None ->
  wsLog (snd (transmitMessage requestId message b))
  = wsLog b ++ [RequestFrame (requestMessageOf requestId message)]
  /\ settled (snd (transmitMessage requestId message b)) = settled b
  /\ messageQueue (snd (transmitMessage requestId message b)) = messageQueue b
  /\ ws (snd (transmitMessage requestId message b)) = Some OPEN
  /\ config (snd (transmitMessage requestId message b)) = config b.
Proof.
  intros Hw Hd. unfold transmitMessage. cbn [newPromise setTimeout].
  cbn [config set_pendingRequests set_nextTimer set_timers set_nextPromise ws].
  rewrite Hd. unfold wsSend.
  cbn [ws set_pendingRequests set_nextTimer set_timers set_nextPromise].
  rewrite Hw. cbn [snd]. repeat split; assumption.
Qed.

Lemma exec_resendAll_open (uuid : nat -> string) (world : World) (now : Z)
  (queue : list QueueItem.t) :
  forall b n,
    isConnected b = true ->
    ws b = Some OPEN ->
    truthyArtificialDelay (config b) = None ->
    exists b',
      fst (exec uuid n world (resendAll queue now b)) = Returned b' tt
      /\ wsLog b' = wsLog b ++ framesFrom uuid n queue
      /\ messageQueue b' = messageQueue b
      /\ extends (settled b) (settled b')
      /\ isConnected b' = true
      /\ ws b' = Some OPEN.
Proof.
  induction queue as [| item rest IH]; intros b n Hc Hw Hd.
  - exists b. cbn [resendAll exec fst framesFrom]. rewrite app_nil_r.
    repeat split; try assumption. apply extends_refl.
  - cbn [resendAll]. rewrite exec_bind. unfold sendMessage. rewrite Hc.
    cbn [negb exec].
    destruct (transmitMessage_open (uuid n) (QueueItem.message item) b Hw Hd)
      as (Hlog & Hset & Hq & Hws & Hcfg).
    pose proof (transmitMessage_frame isConnected
                  ltac:(reflexivity) ltac:(reflexivity) ltac:(reflexivity)
                  ltac:(reflexivity) ltac:(reflexivity) ltac:(reflexivity)
                  (uuid n) (QueueItem.message item) b) as Hcon.
    destruct (transmitMessage (uuid n) (QueueItem.message item) b) as [p b1].
    cbn [snd] in *. cbn [exec].
    pose proof (Later_chain p item b1) as HL.
    destruct (IH (chain p item b1) (S n)) as (b' & He & Hl' & Hq' & Hs' & Hc' & Hw').
    + rewrite (chain_frame isConnected) by reflexivity. congruence.
    + rewrite (chain_frame ws) by reflexivity. exact Hws.
    + rewrite (chain_frame config) by reflexivity. congruence.
    + exists b'. split; [exact He |].
      rewrite (chain_frame wsLog) in Hl' by reflexivity.
      rewrite (chain_frame messageQueue) in Hq' by reflexivity.
      split.
      { rewrite Hl', Hlog. cbn [framesFrom]. rewrite <- app_assoc. reflexivity. }
      split; [congruence |]. split; [| split; assumption].
      eapply extends_trans; [| exact Hs'].
      rewrite <- Hset. exact (later_settled _ _ HL).
Qed.

(** C8.  When the socket opens at time [now], every queued message older
    than the maximum queue age has its promise rejected with ["Message
    expired"]; the frames that go out on the socket are, in the order of the
    queue, those of the other messages (followed by the first heartbeat),
    so nothing is sent for an expired message; and the queue is empty
    afterwards.  This is for a bridge without artificial delay, which is
    how the constructor builds it. *)
Theorem flush_on_open
  (uuid : nat -> string) (world : World) (now : Z) (b : Bridge) :
  truthyArtificialDelay (config b) = None ->
  let maxQueueAge := optZ (config b) opt_timeout 30000 in
  let kept :=
    filter (fun item => negb (expired now maxQueueAge item)) (messageQueue b) in
  exists b',
    run uuid world (wsOnOpen now b) = Returned b' tt
    /\ wsLog b' = wsLog b ++ framesFrom uuid 0 kept ++ [HeartbeatFrame now]
    /\ messageQueue b' = []
    /\ (forall item,
          In item (messageQueue b) ->
          expired now maxQueueAge item = true ->
          In (QueueItem.reject item, Rejected (Error "Message expired"))
             (settled b')).
Proof.
  intros Hd maxQueueAge kept. unfold run, wsOnOpen. rewrite exec_bind.
  set (b3 := emit EvConnected _).
  assert (Hc3 : isConnected b3 = true)
    by (subst b3; rewrite emit_frame by (intros; reflexivity); reflexivity).
  assert (Hw3 : ws b3 = Some OPEN)
    by (subst b3; rewrite emit_frame by (intros; reflexivity); reflexivity).
  assert (Hcfg3 : config b3 = config b)
    by (subst b3; rewrite emit_frame by (intros; reflexivity); reflexivity).
  assert (Hq3 : messageQueue b3 = messageQueue b)
    by (subst b3; rewrite emit_frame by (intros; reflexivity); reflexivity).
  assert (Hl3 : wsLog b3 = wsLog b)
    by (subst b3; rewrite emit_frame by (intros; reflexivity); reflexivity).
  unfold processQueuedMessages. rewrite Hcfg3, Hq3.
  fold maxQueueAge. fold kept.
  set (rejects := fun acc item =>
                    if expired now maxQueueAge item
                    then settle (QueueItem.reject item)
                           (Rejected (Error "Message expired")) acc
                    else acc).
  set (b1 := fold_left rejects (messageQueue b) b3).
  assert (Hframe1 : forall T (proj : Bridge -> T),
             (forall v x, proj (set_settled v x) = proj x) -> proj b1 = proj b3).
  { intros T proj Hp. subst b1. apply fold_left_frame. intros acc item.
    unfold rejects. destruct (expired now maxQueueAge item);
      [apply settle_frame, Hp | reflexivity]. }
  set (b2 := set_messageQueue [] (set_messageQueue kept b1)).
  destruct (exec_resendAll_open uuid world now kept b2 0)
    as (b4 & He & Hl4 & Hq4 & Hs4 & Hc4 & Hw4).
  { subst b2. cbn [isConnected set_messageQueue].
    rewrite (Hframe1 _ isConnected) by reflexivity. exact Hc3. }
  { subst b2. cbn [ws set_messageQueue].
    rewrite (Hframe1 _ ws) by reflexivity. exact Hw3. }
  { subst b2. cbn [config set_messageQueue].
    rewrite (Hframe1 _ config) by reflexivity. rewrite Hcfg3. exact Hd. }
  destruct (exec uuid 0 world (resendAll kept now b2)) as [o4 n4].
  cbn [fst] in He. subst o4. cbn [exec fst].
  exists (startHeartbeat now b4). split; [reflexivity |].
  split.
  { unfold startHeartbeat. cbn [setInterval]. unfold sendHeartbeat, wsSend.
    cbn [isConnected ws wsLog set_heartbeatTimer set_nextTimer set_timers
         set_wsLog].
    assert (Hcc : forall x, isConnected (match heartbeatTimer b4 with
                                         | Some h => clearInterval h x
                                         | None => x
                                         end) = isConnected x)
      by (intros x; destruct (heartbeatTimer b4); reflexivity).
    assert (Hww : forall x, ws (match heartbeatTimer b4 with
                                | Some h => clearInterval h x
                                | None => x
                                end) = ws x)
      by (intros x; destruct (heartbeatTimer b4); reflexivity).
    assert (Hll : forall x, wsLog (match heartbeatTimer b4 with
                                   | Some h => clearInterval h x
                                   | None => x
                                   end) = wsLog x)
      by (intros x; destruct (heartbeatTimer b4); reflexivity).
    rewrite Hcc, Hww, Hc4, Hw4. cbn [negb orb wsLog set_wsLog].
    rewrite Hll, Hl4. subst b2. cbn [wsLog set_messageQueue].
    rewrite (Hframe1 _ wsLog) by reflexivity. rewrite Hl3.
    rewrite <- app_assoc. reflexivity. }
  split.
  { rewrite startHeartbeat_frame by (intros; reflexivity).
    rewrite Hq4. reflexivity. }
  intros item Hin Hexp.
  rewrite startHeartbeat_frame by (intros; reflexivity).
  eapply extends_In; [exact Hs4 |].
  subst b2. cbn [settled set_messageQueue]. subst b1.
  apply expired_items_rejected; assumption.
Qed.

Lemma flush_on_open_witness :
  truthyArtificialDelay (config queuedBridge) = None
  /\ exists b',
       run exampleUuid silentWorld (wsOnOpen 60000 queuedBridge) = Returned b' tt
       /\ wsLog b'
          = [RequestFrame [("id", JStr "uuid-0"); ("type", JStr "second")];
             RequestFrame [("id", JStr "uuid-1"); ("type", JStr "third")];
             HeartbeatFrame 60000]
       /\ messageQueue b' = []
       /\ In (0, Rejected (Error "Message expired")) (settled b').
Proof.
  assert (Hd : truthyArtificialDelay (config queuedBridge) = None)
    by (vm_compute; reflexivity).
  destruct (flush_on_open exampleUuid silentWorld 60000 queuedBridge Hd)
    as (b' & Hrun & Hlog & Hq & Hexp).
  split; [exact Hd |]. exists b'. split; [exact Hrun |].
  split; [rewrite Hlog; vm_compute; reflexivity |].
  split; [exact Hq |].
  apply (Hexp (QueueItem.mk (exampleMessage "first") 0 0 0)).
  - vm_compute. left. reflexivity.
  - vm_compute. reflexivity.
Defined.

(** ** Responses (C1) *)

Lemma JsMap_get_set_same {V} (k : string) (v : V) (m : JsMap.t V) :
  JsMap.get k (JsMap.set k v m) = Some v.
Proof.
  induction m as [| [k' v'] r IH]; cbn [JsMap.set JsMap.get].
  - rewrite String.eqb_refl. reflexivity.
  - destruct (String.eqb k' k) eqn:E; cbn [JsMap.get].
    + rewrite String.eqb_refl. reflexivity.
    + rewrite E. exact IH.
Qed.

(** The handler of inbound messages looks requests up in [pendingRequests]
    only: it never touches the table of pending commands, and a message
    whose id is not in [pendingRequests] invokes no promise callback. *)
Lemma wsOnMessage_ignores_commands (data : option JuliaResponse.t) (now : Z)
  (b : Bridge) :
  pendingCommands (wsOnMessage data now b) = pendingCommands b
  /\ ((forall m, data = Some m ->
                 JsMap.get (JuliaResponse.id m) (pendingRequests b) = None) ->
      settled (wsOnMessage data now b) = settled b).
Proof.
  unfold wsOnMessage. destruct data as [m |]; [| split; reflexivity].
  destruct (String.eqb (JuliaResponse.type m) "heartbeat");
    [split; reflexivity |].
  split.
  - rewrite emit_frame by (intros; reflexivity).
    destruct (JsMap.get (JuliaResponse.id m) (pendingRequests b)) as [pr |];
      [| reflexivity].
    destruct (truthyOptString (JuliaResponse.error m));
      rewrite settle_frame by (intros; reflexivity);
      destruct (PendingRequest.timeout pr); reflexivity.
  - intros H. rewrite (H m eq_refl). unfold emit. reflexivity.
Qed.

(** The sibling path: a request sent with [sendMessage] over the open socket
    is settled by the response that carries its id, resolved with the whole
    message when its [error] is absent or empty and rejected with that error
    otherwise, and its table entry is removed. *)
Lemma request_settled_by_matching_response
  (requestId : string) (message : JsMap.t Json) (m : JuliaResponse.t)
  (now : Z) (b : Bridge) :
  JuliaResponse.id m = requestId ->
  String.eqb (JuliaResponse.type m) "heartbeat" = false ->
  let sent := snd (transmitMessage requestId message b) in
  let p := fst (transmitMessage requestId message b) in
  p = nextPromise b
  /\ In (p, if truthyOptString (JuliaResponse.error m)
            then Rejected (Error (match JuliaResponse.error m with
                                  | Some s => s
                                  | None => ""
                                  end))
            else Resolved (VResponse m))
        (settled (wsOnMessage (Some m) now sent))
  /\ JsMap.has requestId (pendingRequests (wsOnMessage (Some m) now sent))
     = false.
Proof.
  intros Hid Hty sent p.
  assert (Hp : p = nextPromise b).
  { subst p. unfold transmitMessage. cbn [newPromise setTimeout].
    destruct (truthyArtificialDelay _); [reflexivity |].
    destruct (ws _); [| reflexivity].
    destruct (wsSend _ _) as [[err |] b4]; reflexivity. }
  assert (Hget : JsMap.get requestId (pendingRequests sent)
                 = Some (PendingRequest.mk (nextPromise b) (nextPromise b)
                           (Some (nextTimer b)))).
  { subst sent. unfold transmitMessage. cbn [newPromise setTimeout].
    match goal with
    | |- context [set_pendingRequests ?v ?x] => set (b3 := set_pendingRequests v x)
    end.
    assert (H3 : JsMap.get requestId (pendingRequests b3)
                 = Some (PendingRequest.mk (nextPromise b) (nextPromise b)
                           (Some (nextTimer b))))
      by (subst b3; apply JsMap_get_set_same).
    destruct (truthyArtificialDelay (config b3)); cbn [snd].
    - cbn [setTimeout snd pendingRequests set_nextTimer set_timers]. exact H3.
    - destruct (ws b3); cbn [snd]; [| exact H3].
      pose proof (wsSend_frame pendingRequests ltac:(reflexivity)
                    (RequestFrame (requestMessageOf requestId message)) b3) as Hs.
      destruct (wsSend _ b3) as [[err |] b4]; cbn [snd] in Hs |- *.
      + rewrite settle_frame by (intros; reflexivity). congruence.
      + congruence. }
  split; [exact Hp |].
  unfold wsOnMessage. rewrite Hty, Hid, Hget. rewrite Hp.
  cbn [PendingRequest.timeout PendingRequest.resolve PendingRequest.reject].
  split.
  - unfold emit. cbn [settled set_emitted].
    destruct (truthyOptString (JuliaResponse.error m)); apply In_settled_settle.
  - rewrite emit_frame by (intros; reflexivity).
    destruct (truthyOptString (JuliaResponse.error m));
      rewrite settle_frame by (intros; reflexivity);
      cbn [pendingRequests set_pendingRequests];
      apply JsMap_has_delete_same.
Qed.

(** On the same path a response that arrives after the deadline of its
    request is dropped: the entry is gone, no callback is invoked. *)
Lemma request_timeout_discards_late_response
  (requestId : string) (p : PromiseId) (m : JuliaResponse.t) (now : Z)
  (b : Bridge) :
  JuliaResponse.id m = requestId ->
  settled (wsOnMessage (Some m) now (onRequestTimeout requestId p b))
  = settled (onRequestTimeout requestId p b).
Proof.
  intros Hid.
  apply (proj2 (wsOnMessage_ignores_commands (Some m) now
                  (onRequestTimeout requestId p b))).
  intros m' Hm'. injection Hm' as <-. rewrite Hid.
  unfold onRequestTimeout. rewrite settle_frame by (intros; reflexivity).
  cbn [pendingRequests set_pendingRequests].
  pose proof (JsMap_has_delete_same requestId (pendingRequests b)) as H.
  unfold JsMap.has in H.
  destruct (JsMap.get requestId (JsMap.delete requestId (pendingRequests b)));
    [discriminate H | reflexivity].
Qed.

(** C1 at a concrete input.  [executeCode("1 + 1")] writes the command with
    id ["uuid-0"] to the child and registers its promise in
    [pendingCommands].  When the response with id ["uuid-0"] and no error
    arrives on the socket, the handler finds nothing under that id in
    [pendingRequests]: no promise callback is invoked, the entry stays in
    [pendingCommands], and the caller is still suspended.  The only way out
    is the deadline: the caller fails with a timeout although the response
    arrived. *)
Theorem response_does_not_settle_command :
  exists b1,
    run exampleUuid frozenWorld (executeCode exampleLength "1 + 1" readyBridge)
    = Suspended b1 0
    /\ stdinLog b1
       = [CommandLine (CommandObj.mk "uuid-0" "execute_code"
                         (ExecuteCodeData "1 + 1"))]
    /\ JsMap.keys (pendingCommands b1) = ["uuid-0"]
    /\ settled (wsOnMessage (Some exampleAnswer) 1000 b1) = []
    /\ JsMap.keys (pendingCommands (wsOnMessage (Some exampleAnswer) 1000 b1))
       = ["uuid-0"]
    /\ emitted (wsOnMessage (Some exampleAnswer) 1000 b1)
       = [EvMessage exampleAnswer]
    /\ isSuspended
         (run exampleUuid answeringWorld
            (executeCode exampleLength "1 + 1" readyBridge)) = true
    /\ exists b2,
         run exampleUuid answerThenDeadlineWorld
           (executeCode exampleLength "1 + 1" readyBridge)
         = Threw b2
             (JuliaBridgeError
                "Code execution error: Command timed out: execute_code"
                "CODE_EXECUTION_ERROR").
Proof.
  eexists. split; [vm_compute; reflexivity |].
  repeat (split; [vm_compute; reflexivity |]).
  eexists. vm_compute. reflexivity.
Qed.

(** ** At most one settlement per command (C2) *)

Lemma callCount_call (q p : PromiseId) (s : Settlement) (b : Bridge) :
  callCount q (call p s b)
  = callCount q b + (if Nat.eqb p q then 1 else 0).
Proof.
  unfold callCount, call. cbn [settled set_settled].
  rewrite filter_app, length_app. cbn [filter fst].
  destruct (Nat.eqb p q); reflexivity.
Qed.

Lemma callCount_fresh (p : PromiseId) (b : Bridge) :
  (forall q s, In (q, s) (settled b) -> q < p) -> callCount p b = 0.
Proof.
  unfold callCount. intros H.
  induction (settled b) as [| [q s] r IH]; [reflexivity |].
  cbn [filter fst].
  destruct (Nat.eqb q p) eqn:E.
  - apply Nat.eqb_eq in E. subst q.
    pose proof (H p s (or_introl eq_refl)). lia.
  - apply IH. intros q' s' Hin. apply (H q' s'). right. exact Hin.
Qed.

Lemma settle_without_links (p : PromiseId) (s : Settlement) (b : Bridge) :
  thenLinks b = [] -> settle p s b = call p s b.
Proof.
  intros H. unfold settle.
  destruct (negb (isSettled p b)); [| reflexivity].
  change (thenLinks (call p s b)) with (thenLinks b). rewrite H. reflexivity.
Qed.

(** [Correlated] looks at six fields only. *)
Lemma Correlated_view (b b' : Bridge) :
  pendingRequests b' = pendingRequests b ->
  thenLinks b' = thenLinks b ->
  timers b' = timers b ->
  nextTimer b' = nextTimer b ->
  nextPromise b' = nextPromise b ->
  settled b' = settled b ->
  Correlated b -> Correlated b'.
Proof.
  intros A B C D E F [H1 H2 H3 H4 H5 H6 H7 H8].
  constructor; unfold callCount in *; rewrite ?A, ?B, ?C, ?D, ?E, ?F;
    assumption.
Qed.

Ltac same_view :=
  eapply Correlated_view; [.. | eassumption]; reflexivity.

Lemma Correlated_newPromise (b : Bridge) :
  Correlated b -> Correlated (snd (newPromise b)).
Proof.
  intros [H1 H2 H3 H4 H5 H6 H7 H8]. unfold newPromise. cbn [snd].
  constructor; unfold callCount in *;
    cbn [pendingRequests thenLinks timers nextTimer nextPromise settled
         set_nextPromise]; try assumption.
  - intros p s Hin. pose proof (H5 p s Hin). lia.
  - intros t c m p Hin Hcb. destruct (H6 t c m p Hin Hcb) as (A & B & C).
    repeat split; [lia | exact B | exact C].
Qed.

Lemma NoDup_map_filter {A B} (f : A -> B) (keep : A -> bool) (l : list A) :
  NoDup (map f l) -> NoDup (map f (filter keep l)).
Proof.
  induction l as [| x r IH]; cbn [filter map]; intros H; [constructor |].
  inversion H as [| y l' Hnot Hnd]; subst.
  destruct (keep x); cbn [map]; [| apply IH; exact Hnd].
  constructor; [| apply IH; exact Hnd].
  intros Hin. apply Hnot. apply in_map_iff in Hin.
  destruct Hin as (x' & Hx' & Hin'). apply filter_In in Hin'.
  apply in_map_iff. exists x'. tauto.
Qed.

Lemma Correlated_clearTimeout (h : TimerId) (b : Bridge) :
  Correlated b -> Correlated (clearTimeout h b).
Proof.
  intros [H1 H2 H3 H4 H5 H6 H7 H8]. unfold clearTimeout.
  constructor; unfold callCount in *;
    cbn [pendingRequests thenLinks timers nextTimer nextPromise settled
         set_timers]; try assumption.
  - intros t Hin. apply filter_In in Hin. apply H3. tauto.
  - apply NoDup_map_filter. exact H4.
  - intros t c m p Hin. apply filter_In in Hin. apply H6. tauto.
  - intros t1 t2 c1 m1 c2 m2 p I1 I2. apply filter_In in I1, I2.
    apply H7; tauto.
Qed.

(** Arming a timer whose callback guards no promise that is guarded or
    settled already. *)
Lemma Correlated_setTimeout (cb : TimerCallback) (ms : Q) (b : Bridge) :
  Correlated b ->
  (forall commandId command p,
      cb = CommandTimeout commandId command p ->
      p < nextPromise b /\ callCount p b = 0
      /\ forall t c m, In t (timers b) -> callback t <> CommandTimeout c m p) ->
  Correlated (snd (setTimeout cb ms b)).
Proof.
  intros [H1 H2 H3 H4 H5 H6 H7 H8] Hcb. unfold setTimeout. cbn [snd].
  constructor; unfold callCount in *;
    cbn [pendingRequests thenLinks timers nextTimer nextPromise settled
         set_timers set_nextTimer]; try assumption.
  - intros t Hin. apply in_app_or in Hin. destruct Hin as [Hin | [<- | []]].
    + pose proof (H3 t Hin). lia.
    + cbn [handle]. lia.
  - rewrite map_app. cbn [map handle]. apply NoDup_app; [exact H4 | | ].
    + constructor; [intros [] | constructor].
    + intros x Hin Hin'. destruct Hin' as [<- | []].
      apply in_map_iff in Hin. destruct Hin as (t & Ht & Hin).
      pose proof (H3 t Hin). lia.
  - intros t c m p Hin Hc. apply in_app_or in Hin.
    destruct Hin as [Hin | [<- | []]].
    + apply (H6 t c m p Hin Hc).
    + cbn [callback repeating] in *. destruct (Hcb c m p Hc) as (A & B & _).
      repeat split; assumption.
  - intros t1 t2 c1 m1 c2 m2 p I1 I2 C1 C2.
    apply in_app_or in I1, I2.
    destruct I1 as [I1 | [<- | []]], I2 as [I2 | [<- | []]].
    + apply (H7 t1 t2 c1 m1 c2 m2 p); assumption.
    + cbn [callback] in C2. destruct (Hcb c2 m2 p C2) as (_ & _ & Hno).
      exfalso. exact (Hno t1 c1 m1 I1 C1).
    + cbn [callback] in C1. destruct (Hcb c1 m1 p C1) as (_ & _ & Hno).
      exfalso. exact (Hno t2 c2 m2 I2 C2).
    + reflexivity.
Qed.

(** Invoking the callback of a promise that was untouched and that no
    armed timer guards. *)
Lemma Correlated_settle (p : PromiseId) (s : Settlement) (b : Bridge) :
  Correlated b ->
  p < nextPromise b ->
  callCount p b = 0 ->
  (forall t c m, In t (timers b) -> callback t <> CommandTimeout c m p) ->
  Correlated (settle p s b).
Proof.
  intros Hcor Hlt Hzero Hno.
  rewrite settle_without_links by (apply (cor_links _ Hcor)).
  destruct Hcor as [H1 H2 H3 H4 H5 H6 H7 H8].
  constructor; try assumption.
  - intros q s' Hin. unfold call in Hin. cbn [settled set_settled] in Hin.
    apply in_app_or in Hin. destruct Hin as [Hin | [Heq | []]].
    + apply (H5 q s' Hin).
    + injection Heq as <- _. exact Hlt.
  - intros t c m q Hin Hcb. cbn [timers call set_settled] in Hin.
    destruct (H6 t c m q Hin Hcb) as (A & B & C).
    split; [exact A |]. split; [| exact C].
    rewrite callCount_call, B.
    destruct (Nat.eqb p q) eqn:E; [| reflexivity].
    apply Nat.eqb_eq in E. subst q. exfalso. exact (Hno t c m Hin Hcb).
  - intros q. rewrite callCount_call.
    destruct (Nat.eqb p q) eqn:E.
    + apply Nat.eqb_eq in E. subst q. rewrite Hzero. lia.
    + pose proof (H8 q). lia.
Qed.

Lemma Correlated_handleReconnect (b : Bridge) :
  Correlated b -> Correlated (handleReconnect b).
Proof.
  intros H. unfold handleReconnect.
  destruct (Nat.ltb (reconnectAttempts b) (maxReconnectAttempts b)).
  - apply Correlated_setTimeout.
    + unfold emit, log. same_view.
    + intros c m p Hc. discriminate Hc.
  - unfold emit, log. same_view.
Qed.

Lemma Correlated_rejectTracked (command : string) (p : PromiseId)
  (reason : JsError) (b : Bridge) :
  Correlated b ->
  p < nextPromise b ->
  callCount p b = 0 ->
  (forall t c m, In t (timers b) -> callback t <> CommandTimeout c m p) ->
  Correlated (rejectTracked command p reason b).
Proof.
  intros H Hlt Hz Hno. unfold rejectTracked.
  apply Correlated_settle.
  - unfold emit. same_view.
  - exact Hlt.
  - exact Hz.
  - exact Hno.
Qed.

Lemma Correlated_abandon (commandId command : string) (p : PromiseId)
  (h : TimerId) (reason : JsError) (b : Bridge) :
  Correlated b ->
  p < nextPromise b ->
  callCount p b = 0 ->
  guardedOnlyBy p h b ->
  Correlated (abandon commandId command p h reason b).
Proof.
  intros H Hlt Hz Hg. unfold abandon.
  apply Correlated_rejectTracked.
  - apply Correlated_clearTimeout. same_view.
  - exact Hlt.
  - exact Hz.
  - intros t c m Hin Hcb. unfold clearTimeout in Hin.
    cbn [timers set_timers set_pendingCommands] in Hin.
    apply filter_In in Hin. destruct Hin as [Hin Hne].
    rewrite (Hg t c m Hin Hcb), Nat.eqb_refl in Hne. discriminate Hne.
Qed.

Lemma Correlated_executor (len : CommandObj.t -> N)
  (commandId command : string) (data : CommandData) (b : Bridge) :
  Correlated b ->
  Correlated (snd (sendCommandExecutor len commandId command data b)).
Proof.
  intros H. unfold sendCommandExecutor.
  cbn [newPromise setTimeout fst snd].
  set (b3 := set_pendingCommands _ _).
  assert (Hfresh : callCount (nextPromise b) b = 0)
    by (apply callCount_fresh; intros q s Hin;
        exact (cor_settled _ H q s Hin)).
  assert (Hold : forall t c m, In t (timers b) ->
                               callback t <> CommandTimeout c m (nextPromise b)).
  { intros t c m Hin Hcb. destruct (cor_timer _ H t c m _ Hin Hcb) as (A & _).
    lia. }
  assert (C3 : Correlated b3).
  { subst b3.
    apply (Correlated_view
             (snd (setTimeout (CommandTimeout commandId command (nextPromise b))
                     (inject_Z (timeout b)) (snd (newPromise b)))));
      try reflexivity.
    apply Correlated_setTimeout; [apply Correlated_newPromise, H |].
    intros c m p Hc. injection Hc as _ _ <-.
    cbn [newPromise snd nextPromise set_nextPromise timers].
    split; [lia |]. split; [exact Hfresh | exact Hold]. }
  assert (Hab : forall reason,
             Correlated (abandon commandId command (nextPromise b)
                           (nextTimer b) reason b3)).
  { intros reason. apply Correlated_abandon.
    - exact C3.
    - subst b3. cbn [nextPromise set_pendingCommands set_nextTimer set_timers
                     set_nextPromise]. lia.
    - exact Hfresh.
    - intros t c m Hin Hcb. subst b3.
      cbn [timers set_pendingCommands set_nextTimer set_timers
           set_nextPromise] in Hin.
      apply in_app_or in Hin. destruct Hin as [Hin | [<- | []]].
      + exfalso. exact (Hold t c m Hin Hcb).
      + reflexivity. }
  destruct (10 * 1024 * 1024 <? len _)%N; cbn [snd]; [apply Hab |].
  destruct (processStdin b3) as [pipe |]; cbn [snd]; [| apply Hab].
  destruct (writable pipe); cbn [negb snd].
  - destruct (writeThrows pipe) as [msg |]; cbn [snd]; [apply Hab |].
    destruct (writeReturns pipe); cbn [snd]; unfold log; same_view.
  - match goal with
    | |- context [if ?c then _ else _] => destruct c
    end; cbn [snd]; [apply Correlated_handleReconnect |]; apply Hab.
Qed.

Lemma Quiet_frozenWorld : Quiet frozenWorld.
Proof. intros b p b' s H. discriminate H. Qed.

(** [CeSend] either leaves the bridge alone (the guard of [sendCommand]) or
    runs the executor. *)
Lemma correlatorStep_send (len : CommandObj.t -> N)
  (commandId command : string) (data : CommandData) (b : Bridge) :
  correlatorStep len b (CeSend commandId command data) = b
  \/ correlatorStep len b (CeSend commandId command data)
     = snd (sendCommandExecutor len commandId command data b).
Proof.
  unfold correlatorStep, run, sendCommand.
  destruct (negb (isInitialized b)
            || match processStdin b with Some _ => false | None => true end);
    [left; reflexivity |].
  right. cbn [exec].
  destruct (sendCommandExecutor len commandId command data b) as [p b1].
  cbn [snd]. unfold await.
  destruct (find (fun ps => Nat.eqb (fst ps) p) (settled b1))
    as [[q [v | e]] |]; reflexivity.
Qed.

Lemma Correlated_step (len : CommandObj.t -> N) (b : Bridge)
  (ev : CorrelatorEvent) :
  Correlated b -> Correlated (correlatorStep len b ev).
Proof.
  intros H. destruct ev as [commandId command data | h | data now].
  - destruct (correlatorStep_send len commandId command data b) as [-> | ->];
      [exact H | apply Correlated_executor, H].
  - cbn [correlatorStep].
    destruct (find (fun t => Nat.eqb (handle t) h) (timers b)) as [t |] eqn:Hf;
      [| exact H].
    apply find_some in Hf. destruct Hf as [Hin Hh]. apply Nat.eqb_eq in Hh.
    destruct (callback t) as [cid cmd p | | | | | | |] eqn:Hcb; try exact H.
    destruct (cor_timer _ H t cid cmd p Hin Hcb) as (Hlt & Hz & Hrep).
    rewrite Hrep. unfold onCommandTimeout.
    destruct (JsMap.has cid (pendingCommands (clearTimeout h b)));
      [| apply Correlated_clearTimeout, H].
    apply Correlated_rejectTracked.
    + apply (Correlated_view (clearTimeout h b)); try reflexivity.
      apply Correlated_clearTimeout, H.
    + exact Hlt.
    + exact Hz.
    + intros t' c m Hin' Hcb'. unfold clearTimeout in Hin'.
      cbn [timers set_pendingCommands set_timers] in Hin'.
      apply filter_In in Hin'. destruct Hin' as [Hin' Hne].
      rewrite (cor_unique _ H t' t c m cid cmd p Hin' Hin Hcb' Hcb) in Hne.
      rewrite Hh, Nat.eqb_refl in Hne. discriminate Hne.
  - cbn [correlatorStep]. unfold wsOnMessage.
    destruct data as [m |]; [| unfold log; same_view].
    destruct (String.eqb (JuliaResponse.type m) "heartbeat");
      [unfold handleHeartbeat; same_view |].
    rewrite (cor_requests _ H). cbn [JsMap.get]. unfold emit. same_view.
Qed.

Lemma Correlated_steps (len : CommandObj.t -> N)
  (events : list CorrelatorEvent) :
  forall b, Correlated b -> Correlated (fold_left (correlatorStep len) events b).
Proof.
  induction events as [| ev rest IH]; intros b H; cbn [fold_left];
    [exact H | apply IH, Correlated_step, H].
Qed.

Lemma Later_wsOnMessage (data : option JuliaResponse.t) (now : Z) (b : Bridge) :
  Later b (wsOnMessage data now b).
Proof.
  unfold wsOnMessage. destruct data as [m |]; [| apply Later_log].
  destruct (String.eqb (JuliaResponse.type m) "heartbeat");
    [apply Later_frame; reflexivity |].
  eapply Later_trans; [| apply Later_emit].
  destruct (JsMap.get (JuliaResponse.id m) (pendingRequests b)) as [pr |];
    [| apply Later_refl].
  assert (H2 : Later b
                 (set_pendingRequests
                    (JsMap.delete (JuliaResponse.id m)
                       (pendingRequests
                          match PendingRequest.timeout pr with
                          | Some h => clearTimeout h b
                          | None => b
                          end))
                    match PendingRequest.timeout pr with
                    | Some h => clearTimeout h b
                    | None => b
                    end)).
  { destruct (PendingRequest.timeout pr); apply Later_frame; reflexivity. }
  destruct (truthyOptString (JuliaResponse.error m));
    (eapply Later_trans; [exact H2 | apply Later_settle]).
Qed.

Lemma Later_correlatorStep (len : CommandObj.t -> N) (b : Bridge)
  (ev : CorrelatorEvent) :
  Later b (correlatorStep len b ev).
Proof.
  destruct ev as [commandId command data | h | data now].
  - destruct (correlatorStep_send len commandId command data b) as [-> | ->];
      [apply Later_refl | apply executor_spec].
  - cbn [correlatorStep].
    destruct (find (fun t => Nat.eqb (handle t) h) (timers b)) as [t |];
      [| apply Later_refl].
    destruct (callback t); try apply Later_refl.
    eapply Later_trans; [| apply Later_onCommandTimeout].
    destruct (repeating t); [apply Later_refl | apply Later_clearTimeout].
  - apply Later_wsOnMessage.
Qed.

Lemma Later_correlatorSteps (len : CommandObj.t -> N)
  (events : list CorrelatorEvent) :
  forall b, Later b (fold_left (correlatorStep len) events b).
Proof.
  induction events as [| ev rest IH]; intros b; cbn [fold_left];
    [apply Later_refl |].
  eapply Later_trans; [apply Later_correlatorStep | apply IH].
Qed.

(** What [fireTimer] does for the deadline timer of a command is the
    [CeDeadline] step. *)
Lemma fireTimer_deadline (len : CommandObj.t -> N) (h : TimerId) (now : Z)
  (commandId command : string) (p : PromiseId) (ms : Q) (b : Bridge) :
  find (fun t => Nat.eqb (handle t) h) (timers b)
  = Some (mkTimer h (CommandTimeout commandId command p) ms false) ->
  fireTimer h now b = Ret (correlatorStep len b (CeDeadline h)) tt.
Proof.
  intros H. unfold fireTimer. cbn [correlatorStep]. rewrite H. reflexivity.
Qed.

(** C2.  From a bridge in the shape the class maintains, whatever commands
    are sent, whatever deadline timers fire and whatever frames arrive, no
    promise callback is invoked more than once.  And when the deadline timer
    of a pending command fires before anything settled it, the promise of
    the command is rejected with [COMMAND_TIMEOUT], its entry leaves the
    table and its timer is gone; after that, whatever happens -- responses
    with the id of the command included -- the callbacks of that promise
    are not invoked again: the timeout stays its only settlement. *)
Theorem command_settles_at_most_once
  (len : CommandObj.t -> N) (b : Bridge) :
  Correlated b ->
  (forall events p,
      callCount p (fold_left (correlatorStep len) events b) <= 1)
  /\ (forall h commandId command p ms,
        find (fun t => Nat.eqb (handle t) h) (timers b)
        = Some (mkTimer h (CommandTimeout commandId command p) ms false) ->
        JsMap.has commandId (pendingCommands b) = true ->
        let timedOut := correlatorStep len b (CeDeadline h) in
        JsMap.has commandId (pendingCommands timedOut) = false
        /\ armed h timedOut = false
        /\ forall later,
             filter (fun ps => Nat.eqb (fst ps) p)
                    (settled (fold_left (correlatorStep len) later timedOut))
             = [(p, Rejected (commandTimedOut command))]).
Proof.
  intros Hcor. split.
  { intros events p. apply cor_once. apply Correlated_steps, Hcor. }
  intros h commandId command p ms Hfind Hhas timedOut.
  pose proof (find_some _ _ Hfind) as [Hin _].
  destruct (cor_timer _ Hcor _ commandId command p Hin eq_refl) as (Hlt & Hz & _).
  assert (Hstep : timedOut
                  = rejectTracked command p (commandTimedOut command)
                      (set_pendingCommands
                         (JsMap.delete commandId (pendingCommands b))
                         (clearTimeout h b))).
  { subst timedOut. cbn [correlatorStep]. rewrite Hfind.
    cbn [callback repeating]. unfold onCommandTimeout.
    change (pendingCommands (clearTimeout h b)) with (pendingCommands b).
    rewrite Hhas. reflexivity. }
  assert (Hsettled : settled timedOut
                     = settled b ++ [(p, Rejected (commandTimedOut command))]).
  { rewrite Hstep. unfold rejectTracked.
    rewrite settle_without_links
      by (unfold emit, clearTimeout; apply (cor_links _ Hcor)).
    reflexivity. }
  split.
  { rewrite Hstep. unfold rejectTracked. frame. apply JsMap_has_delete_same. }
  split.
  { rewrite Hstep. unfold rejectTracked, armed.
    rewrite settle_frame by (intros; reflexivity). unfold emit.
    apply armed_clearTimeout. }
  intros later.
  assert (Hc' : Correlated timedOut) by (apply Correlated_step, Hcor).
  pose proof (cor_once _ (Correlated_steps len later _ Hc') p) as Hone.
  destruct (later_settled _ _ (Later_correlatorSteps len later timedOut))
    as [extra Hext].
  unfold callCount in Hone, Hz. rewrite Hext, Hsettled in Hone |- *.
  rewrite !filter_app in Hone |- *. rewrite !length_app in Hone.
  cbn [filter fst] in Hone |- *. rewrite Nat.eqb_refl in Hone |- *.
  apply length_zero_iff_nil in Hz. rewrite Hz in Hone |- *.
  cbn [length app] in Hone |- *.
  destruct (filter (fun ps => Nat.eqb (fst ps) p) extra) as [| x r];
    [reflexivity |].
  cbn [length] in Hone. lia.
Qed.

Lemma Correlated_readyBridge : Correlated readyBridge.
Proof.
  constructor.
  - vm_compute. reflexivity.
  - vm_compute. reflexivity.
  - intros t Hin. vm_compute in Hin. contradiction.
  - vm_compute. constructor.
  - intros p s Hin. vm_compute in Hin. contradiction.
  - intros t c m p Hin. vm_compute in Hin. contradiction.
  - intros t1 t2 c1 m1 c2 m2 p Hin. vm_compute in Hin. contradiction.
  - intros p. unfold callCount.
    change (settled readyBridge) with (@nil (nat * Settlement)).
    cbn [filter length]. lia.
Qed.

Lemma command_settles_at_most_once_witness :
  Correlated sentBridge
  /\ find (fun t => Nat.eqb (handle t) 0) (timers sentBridge)
     = Some (mkTimer 0 (CommandTimeout "uuid-0" "execute_code" 0)
               (inject_Z 30000) false)
  /\ JsMap.has "uuid-0" (pendingCommands sentBridge) = true
  /\ callCount 0 (fold_left (correlatorStep exampleLength) lateAnswers sentBridge)
     <= 1
  /\ filter (fun ps => Nat.eqb (fst ps) 0)
       (settled
          (fold_left (correlatorStep exampleLength)
             [CeMessage (Some exampleAnswer) 40000; CeDeadline 0]
             (correlatorStep exampleLength sentBridge (CeDeadline 0))))
     = [(0, Rejected (commandTimedOut "execute_code"))].
Proof.
  assert (Hsent : sentBridge
                  = correlatorStep exampleLength readyBridge
                      (CeSend "uuid-0" "execute_code" (ExecuteCodeData "1 + 1")))
    by (vm_compute; reflexivity).
  assert (Hcor : Correlated sentBridge).
  { rewrite Hsent. apply Correlated_step, Correlated_readyBridge. }
  assert (Hfind : find (fun t => Nat.eqb (handle t) 0) (timers sentBridge)
                  = Some (mkTimer 0 (CommandTimeout "uuid-0" "execute_code" 0)
                            (inject_Z 30000) false))
    by (vm_compute; reflexivity).
  assert (Hhas : JsMap.has "uuid-0" (pendingCommands sentBridge) = true)
    by (vm_compute; reflexivity).
  destruct (command_settles_at_most_once exampleLength sentBridge Hcor)
    as [Honce Hlate].
  destruct (Hlate 0 "uuid-0" "execute_code" 0 (inject_Z 30000) Hfind Hhas)
    as (_ & _ & Hfilter).
  split; [exact Hcor |]. split; [exact Hfind |]. split; [exact Hhas |].
  split; [apply Honce | apply Hfilter].
Defined.

(** ** Shutdown (C3) *)

Lemma Later_Grown (b b' : Bridge) : Later b b' -> Grown b b'.
Proof. intros [A B C D E F]. constructor; assumption. Qed.

Lemma Grown_refl (b : Bridge) : Grown b b.
Proof. constructor; try reflexivity; apply extends_refl. Qed.

Lemma Grown_trans (b1 b2 b3 : Bridge) :
  Grown b1 b2 -> Grown b2 b3 -> Grown b1 b3.
Proof.
  intros [A1 B1 C1 D1 E1] [A2 B2 C2 D2 E2].
  constructor; try congruence; eapply extends_trans; eassumption.
Qed.

Lemma stoppedOrLogged_Grown (id : string) (b b' : Bridge) :
  Grown b b' -> stoppedOrLogged id b -> stoppedOrLogged id b'.
Proof.
  intros G [H | [error H]].
  - left. exact (extends_In _ _ _ (grown_emitted _ _ G) H).
  - right. exists error. exact (extends_In _ _ _ (grown_console _ _ G) H).
Qed.

(** The first loop of [shutdown] rejects every pending command. *)
Lemma cancelPendingCommands_rejects (b : Bridge) (pc : PendingCommand.t) :
  In pc (JsMap.values (pendingCommands b)) ->
  In (PendingCommand.reject pc, Rejected bridgeShutdown)
     (settled (cancelPendingCommands b)).
Proof.
  unfold cancelPendingCommands.
  generalize (JsMap.values (pendingCommands b)) as l. intros l. revert b.
  induction l as [| x rest IH]; intros b Hin; [destruct Hin |].
  cbn [fold_left]. destruct Hin as [-> | Hin]; [| apply IH, Hin].
  match goal with
  | |- In _ (settled (fold_left ?f rest ?x)) =>
      assert (HL : Later x (fold_left f rest x))
  end.
  { apply Later_fold_left. intros acc y.
    eapply Later_trans; [apply Later_clearTimeout | apply Later_settle]. }
  eapply extends_In; [exact (later_settled _ _ HL) |].
  apply In_settled_settle.
Qed.

Lemma Later_cancelPendingCommands (b : Bridge) :
  Later b (cancelPendingCommands b).
Proof.
  unfold cancelPendingCommands. apply Later_fold_left. intros acc y.
  eapply Later_trans; [apply Later_clearTimeout | apply Later_settle].
Qed.

Section Shutdown.

Variable len : CommandObj.t -> N.
Variable uuid : nat -> string.
Variable world : World.
Hypothesis world_quiet : Quiet world.
Hypothesis world_responsive : Responsive world.

(** One turn of the second loop of [shutdown]: the session is stopped and
    removed, or it stays and the failure is logged; the loop goes on in
    both cases. *)
Lemma exec_stop_one (id : string) (b : Bridge) (n : nat) :
  isInitialized b = true ->
  truthyString id = true ->
  JsMap.has id (activeSwarms b) = true ->
  exists b' n',
    exec uuid n world
      (tryCatch (stopSwarm len (Some id) b)
         (fun b1 error =>
            Ret (log (ConsoleError
                        [Txt ("Failed to stop swarm " ++ id
                              ++ " during shutdown:"); ErrObj error]) b1)
                tt))
    = (Returned b' tt, n')
    /\ Grown b b'
    /\ stoppedOrLogged id b'
    /\ (activeSwarms b' = activeSwarms b
        \/ (activeSwarms b' = JsMap.delete id (activeSwarms b)
            /\ In (EvSwarmStopped id) (emitted b'))).
Proof.
  intros Hinit Ht Hhas. unfold stopSwarm. rewrite Hinit, Ht, Hhas.
  cbn [negb]. rewrite !exec_tryCatch, exec_bind.
  destruct (exec_sendCommand len uuid world world_quiet "stop_swarm"
              (StopSwarmData id) b n) as (Hl & _ & Hs).
  specialize (Hs world_responsive).
  destruct (exec uuid n world (sendCommand len "stop_swarm" (StopSwarmData id) b))
    as [[b1 v | b1 e | b1 p] n1]; cbn [fst final isSuspended] in Hl, Hs;
    [| | discriminate Hs].
  - cbn [exec].
    set (b' := emit (EvSwarmStopped id)
                 (set_activeSwarms (JsMap.delete id (activeSwarms b1)) b1)).
    assert (Hev : In (EvSwarmStopped id) (emitted b')).
    { subst b'. unfold emit. cbn [emitted set_emitted set_activeSwarms].
      apply in_or_app. right. left. reflexivity. }
    exists b', n1. split; [reflexivity |]. split.
    { eapply Grown_trans; [apply Later_Grown, Hl |].
      subst b'. unfold emit. constructor; try reflexivity;
        cbn [emitted console settled stdinLog set_emitted set_activeSwarms];
        try apply extends_refl. apply extends_snoc. }
    split; [left; exact Hev |].
    right. split; [| exact Hev].
    subst b'. unfold emit. cbn [activeSwarms set_emitted set_activeSwarms].
    rewrite (later_swarms _ _ Hl). reflexivity.
  - cbn [exec].
    set (failure := JuliaBridgeError ("Failed to stop swarm: " ++ message e)
                                     "SWARM_STOP_ERROR").
    exists (log (ConsoleError
                   [Txt ("Failed to stop swarm " ++ id ++ " during shutdown:");
                    ErrObj failure]) b1), n1.
    split; [reflexivity |]. split.
    { eapply Grown_trans; [apply Later_Grown, Hl | apply Later_Grown, Later_log]. }
    split.
    { right. exists failure. unfold log. cbn [console set_console].
      apply in_or_app. right. left. reflexivity. }
    left. unfold log. cbn [activeSwarms set_console].
    exact (later_swarms _ _ Hl).
Qed.

Lemma exec_stopEach (ids : list string) :
  forall (b : Bridge) (n : nat),
    isInitialized b = true ->
    Forall (fun id => truthyString id = true) ids ->
    (forall id, In id ids ->
                JsMap.has id (activeSwarms b) = true \/ stoppedOrLogged id b) ->
    exists b' n',
      exec uuid n world (stopEach len ids b) = (Returned b' tt, n')
      /\ Grown b b'
      /\ forall id, In id ids -> stoppedOrLogged id b'.
Proof.
  induction ids as [| id rest IH]; intros b n Hinit Htruthy Hinv.
  - exists b, n. split; [reflexivity |]. split; [apply Grown_refl |].
    intros id [].
  - inversion Htruthy as [| x l Ht Hrest]; subst.
    cbn [stopEach].
    destruct (JsMap.has id (activeSwarms b)) eqn:Hhas.
    + rewrite exec_bind.
      destruct (exec_stop_one id b n Hinit Ht Hhas)
        as (b1 & n1 & He & Hg & Hdone & Hreg).
      rewrite He.
      destruct (IH b1 n1) as (b' & n' & He' & Hg' & Hall).
      * rewrite (grown_initialized _ _ Hg). exact Hinit.
      * exact Hrest.
      * intros id' Hin'.
        destruct (Hinv id' (or_intror Hin')) as [Hthere | Hwas];
          [| right; exact (stoppedOrLogged_Grown _ _ _ Hg Hwas)].
        destruct Hreg as [Hsame | [Hdel Hev]].
        -- left. rewrite Hsame. exact Hthere.
        -- destruct (String.eqb id id') eqn:E.
           ++ apply String.eqb_eq in E. subst id'. right. left. exact Hev.
           ++ apply String.eqb_neq in E. left. rewrite Hdel.
              rewrite JsMap_has_delete_other by exact E. exact Hthere.
      * exists b', n'. split; [exact He' |].
        split; [eapply Grown_trans; eassumption |].
        intros id' [<- | Hin'];
          [exact (stoppedOrLogged_Grown _ _ _ Hg' Hdone) | apply Hall, Hin'].
    + destruct (IH b n Hinit Hrest) as (b' & n' & He' & Hg' & Hall).
      * intros id' Hin'. apply Hinv. right. exact Hin'.
      * exists b', n'. split; [exact He' |]. split; [exact Hg' |].
        intros id' [<- | Hin']; [| apply Hall, Hin'].
        destruct (Hinv id (or_introl eq_refl)) as [Hthere | Hwas];
          [congruence | exact (stoppedOrLogged_Grown _ _ _ Hg' Hwas)].
Qed.

End Shutdown.

Lemma finishShutdown_spec (b3 : Bridge) :
  extends (settled b3) (settled (finishShutdown b3))
  /\ extends (emitted b3) (emitted (finishShutdown b3))
  /\ extends (console b3) (console (finishShutdown b3))
  /\ activeSwarms (finishShutdown b3) = JsMap.empty
  /\ isInitialized (finishShutdown b3) = false
  /\ (processStdin (finishShutdown b3) <> None ->
      In (RawLine ("exit()" ++ newline)) (stdinLog (finishShutdown b3)))
  /\ (exists t, In t (timers (finishShutdown b3)) /\ callback t = KillProcess).
Proof.
  unfold finishShutdown.
  set (b4 := set_activeSwarms (JsMap.clear (activeSwarms b3)) b3).
  set (b5 := match processStdin b4 with
             | Some _ =>
                 set_stdinLog (stdinLog b4 ++ [RawLine ("exit()" ++ newline)]) b4
             | None => b4
             end).
  set (b7 := set_isInitialized false (snd (setTimeout KillProcess 1000%Q b5))).
  assert (H5 : forall T (proj : Bridge -> T),
             (forall v x, proj (set_stdinLog v x) = proj x) ->
             proj b5 = proj b4).
  { intros T proj Hp. subst b5. destruct (processStdin b4); [apply Hp | reflexivity]. }
  split.
  { rewrite log_frame by (intros; reflexivity).
    eapply extends_trans; [| exact (later_settled _ _ (Later_emit EvShutdown b7))].
    subst b7. cbn [setTimeout snd settled set_isInitialized set_nextTimer
                   set_timers].
    rewrite (H5 _ settled) by reflexivity. apply extends_refl. }
  split.
  { rewrite log_frame by (intros; reflexivity).
    eapply extends_trans; [| exact (later_emitted _ _ (Later_emit EvShutdown b7))].
    subst b7. cbn [setTimeout snd emitted set_isInitialized set_nextTimer
                   set_timers].
    rewrite (H5 _ emitted) by reflexivity. apply extends_refl. }
  split.
  { eapply extends_trans; [| exact (later_console _ _ (Later_log _ _))].
    eapply extends_trans; [| exact (later_console _ _ (Later_emit EvShutdown b7))].
    subst b7. cbn [setTimeout snd console set_isInitialized set_nextTimer
                   set_timers].
    rewrite (H5 _ console) by reflexivity. apply extends_refl. }
  split.
  { rewrite log_frame by (intros; reflexivity).
    rewrite emit_frame by (intros; reflexivity).
    subst b7. cbn [setTimeout snd activeSwarms set_isInitialized
                   set_nextTimer set_timers].
    rewrite (H5 _ activeSwarms) by reflexivity. reflexivity. }
  split.
  { rewrite log_frame by (intros; reflexivity).
    rewrite emit_frame by (intros; reflexivity). reflexivity. }
  split.
  { assert (Hp : forall x, processStdin (log (ConsoleLog [Txt "Julia bridge shut down successfully"]) (emit EvShutdown x))
                           = processStdin x).
    { intros x. unfold processStdin.
      rewrite (log_frame juliaProcess) by (intros; reflexivity).
      rewrite (emit_frame juliaProcess) by (intros; reflexivity). reflexivity. }
    rewrite Hp.
    rewrite (log_frame stdinLog) by (intros; reflexivity).
    rewrite (emit_frame stdinLog) by (intros; reflexivity).
    subst b7. cbn [setTimeout snd stdinLog set_isInitialized set_nextTimer
                   set_timers].
    change (processStdin
              (set_isInitialized false
                 (set_nextTimer (S (nextTimer b5))
                    (set_timers
                       (timers b5 ++ [mkTimer (nextTimer b5) KillProcess 1000%Q false])
                       b5))))
      with (processStdin b5).
    subst b5. destruct (processStdin b4) eqn:E.
    - intros _. cbn [stdinLog set_stdinLog]. apply in_or_app. right. left.
      reflexivity.
    - rewrite E. intros H. contradiction. }
  exists (mkTimer (nextTimer b5) KillProcess 1000%Q false).
  split; [| reflexivity].
  rewrite log_frame by (intros; reflexivity).
  unfold emit. subst b7. cbn [setTimeout snd timers set_emitted
                               set_isInitialized set_nextTimer set_timers].
  apply in_or_app. right. left. reflexivity.
Qed.


